(** * Groupie lobby page: client-side synchronisation and tier presentation

    A shallow embedding of the logic of
    [src/frontend/src/app/lobby/[code]/page.tsx] (the lobby page), of the
    catalogue in [data/businesses] and of the storage keys the page shares
    with [context/AuthContext.tsx]; and, around it, of the components the
    page renders ([ShareButton], [ConfirmedTicket]), of the guest identity
    ([AuthContext], the login page) and of the other pages that read and
    write the active-lobby pointer (the landing page's navigation bar, the
    business page, the tickets page's savings).

    Conventions of the embedding.
    - JavaScript numbers that hold counts, sizes, prices and millisecond
      timestamps are integers ([Z]).
    - [localStorage] is a finite map from keys to strings.
    - A handler is a function from the state it reads to the state it
      writes together with the effects it emits (toasts, HTTP requests,
      navigation), in emission order.
    - JSX is abstracted to the data it is built from: a screen is a
      constructor that carries the values its markup is computed from.
    - A string is the UTF-8 encoding of the JavaScript string; [trim] and
      [length] are computed on the code points and UTF-16 units that the
      bytes encode. *)

From Stdlib Require Import ZArith QArith Qround Qminmax String List Bool Lia Ascii Sorted Permutation.
From stdpp Require Import base option list strings gmap fin_maps.
Import ListNotations.
Local Open Scope string_scope.
Local Open Scope list_scope.
Local Open Scope Z_scope.

(** ** JavaScript array and value helpers *)

Module JS.

(** [xs.filter(p)] *)
Definition filter {A} (p : A -> bool) (xs : list A) : list A := List.filter p xs.

(** [xs.pop()] read as an expression on a fresh array: the last element,
    [undefined] on the empty array. *)
Definition pop {A} (xs : list A) : option A := last xs.

(** [xs.find(p)]: the first element satisfying [p]. *)
Definition find {A} (p : A -> bool) (xs : list A) : option A := List.find p xs.

(** [xs.some(p)] *)
Definition some {A} (p : A -> bool) (xs : list A) : bool := existsb p xs.

(** [xs[0]] *)
Definition first {A} (xs : list A) : option A := head xs.

(** [a || b] where [a] is an object or [undefined]. *)
Definition or_else {A} (a b : option A) : option A :=
  match a with Some x => Some x | None => b end.

(** [s === t] on strings. *)
Definition str_eq (s t : string) : bool := String.eqb s t.

(** Truthiness of a [string | null] value: [null] and the empty string
    are falsy. *)
Definition truthy_str (s : option string) : bool :=
  match s with
  | None => false
  | Some EmptyString => false
  | Some _ => true
  end.

End JS.

(** ** Discount tier table (page.tsx, DISCOUNT_TIERS) *)

Record DiscountTier := mkTier {
  dt_size : Z;
  dt_discount : Z;
  dt_label : string
}.

Definition DISCOUNT_TIERS : list DiscountTier :=
  [ mkTier 2 0 "Standard";
    mkTier 4 20 "20% rabatt";
    mkTier 6 30 "30% rabatt";
    mkTier 8 40 "Beste pris!" ].

Module TierEngine.

(** [tiers.filter(t => count >= t.size)] *)
Definition unlocked (tiers : list DiscountTier) (count : Z) : list DiscountTier :=
  JS.filter (fun t => count >=? dt_size t) tiers.

(** [tiers.filter(t => count >= t.size).pop() || tiers[0]]
    (ProgressBar, the confirmed screen and the offer card). *)
Definition currentTierOf (tiers : list DiscountTier) (count : Z) : option DiscountTier :=
  JS.or_else (JS.pop (unlocked tiers count)) (JS.first tiers).

(** [tiers.find(t => t.size > count)] (ProgressBar.nextTier). *)
Definition nextTierOf (tiers : list DiscountTier) (count : Z) : option DiscountTier :=
  JS.find (fun t => dt_size t >? count) tiers.

(** The same two expressions over the page's constant table. *)
Definition currentTier (count : Z) : option DiscountTier :=
  currentTierOf DISCOUNT_TIERS count.

Definition nextTier (count : Z) : option DiscountTier :=
  nextTierOf DISCOUNT_TIERS count.

(** Vocabulary for statements about the engine: the table is strictly
    increasing in [size]. *)
Definition ascending (tiers : list DiscountTier) : Prop :=
  StronglySorted (fun a b => dt_size a < dt_size b) tiers.

(** [t] is the last tier, in table order, whose size does not exceed
    [count]. *)
Definition last_qualifying (tiers : list DiscountTier) (count : Z) (t : DiscountTier) : Prop :=
  exists pre post,
    tiers = pre ++ t :: post /\
    dt_size t <= count /\
    Forall (fun u => count < dt_size u) post.

(** No tier qualifies and [t] is the first tier of the table. *)
Definition floor_tier (tiers : list DiscountTier) (count : Z) (t : DiscountTier) : Prop :=
  Forall (fun u => count < dt_size u) tiers /\ head tiers = Some t.

End TierEngine.

(** ** Catalogue (data/businesses) *)

Record PricingTier := mkPrice {
  pt_size : Z;
  pt_pricePerPerson : Z;
  pt_discountLabel : string
}.

(** The fields of [BusinessListing] that the lobby page reads;
    [pricingTiers] is optional in the source. *)
Record BusinessListing := mkBusiness {
  b_id : string;
  b_name : string;
  b_category : string;
  b_imageUrl : string;
  b_pricingTiers : option (list PricingTier)
}.

Definition MOCK_BUSINESSES : list BusinessListing :=
  [ mkBusiness "1" "Strike Zone Bowling" "Aktivitet"
      "https://placehold.co/600x400?text=Bowling"
      (Some [ mkPrice 2 250 "Standard";
              mkPrice 4 200 "20% rabatt";
              mkPrice 6 175 "30% rabatt";
              mkPrice 8 150 "Beste pris!" ]);
    mkBusiness "2" "Luigi's Wood Fired Pizza" "Restaurant"
      "https://placehold.co/600x400?text=Pizza"
      (Some [ mkPrice 2 350 "Standard";
              mkPrice 4 325 "Gratis drikke";
              mkPrice 6 300 "Gratis forrett";
              mkPrice 10 275 "VIP-pakke!" ]);
    mkBusiness "3" "Velocity Go-Karting" "Adrenalin"
      "https://placehold.co/600x400?text=Go-Karts"
      (Some [ mkPrice 2 500 "Standard";
              mkPrice 4 450 "50 kr rabatt";
              mkPrice 8 400 "100 kr rabatt";
              mkPrice 12 350 "Beste pris!" ]);
    mkBusiness "4" "The Escape Room Complex" "Aktivitet"
      "https://placehold.co/600x400?text=Escape+Room"
      (Some [ mkPrice 2 400 "Standard";
              mkPrice 3 350 "12% rabatt";
              mkPrice 5 320 "20% rabatt";
              mkPrice 6 300 "Fullt rom-rabatt!" ]) ].

(** [MOCK_BUSINESSES.find((business) => business.id === id)] *)
Definition getBusinessById (id : string) : option BusinessListing :=
  JS.find (fun business => JS.str_eq (b_id business) id) MOCK_BUSINESSES.

Module OfferCard.

(** [business.pricingTiers?.[0]] *)
Definition baseTier (business : BusinessListing) : option PricingTier :=
  match b_pricingTiers business with
  | Some tiers => JS.first tiers
  | None => None
  end.

(** [business.pricingTiers?.find(t => t.size <= lobby.member_count) || baseTier] *)
Definition currentPriceTier (business : BusinessListing) (member_count : Z)
  : option PricingTier :=
  JS.or_else
    (match b_pricingTiers business with
     | Some tiers => JS.find (fun t => pt_size t <=? member_count) tiers
     | None => None
     end)
    (baseTier business).

(** [currentPriceTier?.pricePerPerson || '-']: the number shown before
    "kr"; [None] stands for the dash (a price of 0 is falsy as well). *)
Definition shownPrice (tier : option PricingTier) : option Z :=
  match tier with
  | Some t => if pt_pricePerPerson t =? 0 then None else Some (pt_pricePerPerson t)
  | None => None
  end.

(** [baseTier && currentPriceTier &&
     currentPriceTier.pricePerPerson < baseTier.pricePerPerson]:
    whether the base price is shown struck through next to the price. *)
Definition showsStruckBasePrice (base current : option PricingTier) : bool :=
  match base, current with
  | Some b, Some c => pt_pricePerPerson c <? pt_pricePerPerson b
  | _, _ => false
  end.

End OfferCard.

(** The selection rule in the words of the specification: the tier of
    highest size not exceeding the member count, the smallest tier when the
    group is below every threshold. *)
Module PricingSpec.

Definition applicablePriceTier (tiers : list PricingTier) (member_count : Z)
  : option PricingTier :=
  JS.or_else
    (last (List.filter (fun t => pt_size t <=? member_count) tiers))
    (head tiers).

Definition ascending (tiers : list PricingTier) : Prop :=
  StronglySorted (fun a b => pt_size a < pt_size b) tiers.

End PricingSpec.

(** ** Lobby snapshot, identity, storage *)

Record MemberInfo := mkMember {
  user_name : string;
  is_ready : bool
}.

Record LobbyData := mkLobby {
  lobby_id : string;
  lobby_code : string;
  business_id : string;
  leader_name : string;
  status : string;
  member_count : Z;
  members : list MemberInfo;
  created_at : string;
  expires_at : string
}.

(** The data-model invariant of a snapshot: [member_count == len(members)]. *)
Definition snapshot_wf (data : LobbyData) : Prop :=
  member_count data = Z.of_nat (length (members data)).

(** AuthContext.User *)
Record User := mkUser {
  usr_id : string;
  usr_name : string
}.

(** [localStorage] *)
Abbreviation Storage := (gmap string string).

Definition ACTIVE_LOBBY_KEY : string := "groupie_active_lobby".
Definition ACTIVE_BUSINESS_KEY : string := "groupie_active_business_id".
(** AuthContext.STORAGE_KEY *)
Definition STORAGE_KEY : string := "groupie_user".

(** Both [removeItem] calls that every pointer-clearing site performs. *)
Definition clearActiveLobby (ls : Storage) : Storage :=
  delete ACTIVE_BUSINESS_KEY (delete ACTIVE_LOBBY_KEY ls).

(** ** Effects *)

Inductive Toast :=
  | ToastMemberJoined (newMemberName : option string) (discount : Z)
      (* toast.success(`... ${newMemberName} ble med! Rabatt: ${discount}%`) *)
  | ToastGroupLocked      (* toast.success('Gruppen er laast! Klar for booking...') *)
  | ToastJoinedGroup      (* toast.success('Du er naa med i gruppen!') *)
  | ToastJoinFailed       (* toast.error('Kunne ikke bli med') *)
  | ToastLeftGroup        (* toast.success('Du har forlatt gruppen') *)
  | ToastLobbyExpired.    (* toast.error('Lobbyen har utloept!') *)

Inductive HttpRequest :=
  | GetLobby (code : string)                       (* GET  /lobbies/{code} *)
  | PostJoin (code : string) (userName : string)   (* POST /lobbies/{code}/join *)
  | PostReady (code : string) (userName : string)  (* POST /lobbies/{code}/ready *)
  | PostLobby (leaderName : string).               (* POST /lobbies *)

(** What [await fetch(...)] in [fetchLobbyData] can yield. *)
Inductive FetchResult :=
  | Rejected                  (* fetch rejects, or the body does not parse *)
  | NotOk (httpStatus : Z)    (* !response.ok *)
  | Ok (data : LobbyData).    (* response.ok, body parsed *)

(** ** Lobby page state (LobbyPage) *)

Record PageState := mkPage {
  lobby : option LobbyData;
  isLoading : bool;
  error : option string;
  hasJoined : bool;
  prevMemberCountRef : Z;
  prevStatusRef : string
}.

Definition initialPage : PageState :=
  mkPage None true None false 0 "".

Definition MSG_NOT_FOUND : string := "Lobbyen ble ikke funnet.".
Definition MSG_NO_SERVER : string := "Kunne ikke koble til serveren.".

Module Fetch.

(** The toast of the membership branch of [fetchLobbyData]:
    [data.members[data.members.length - 1]?.user_name] and
    [filter(...).pop()?.discount || 0]. *)
Definition memberJoinedToast (data : LobbyData) : Toast :=
  let newMemberName := user_name <$> last (members data) in
  let currentTier := JS.pop (TierEngine.unlocked DISCOUNT_TIERS (member_count data)) in
  let discount := match currentTier with Some t => dt_discount t | None => 0 end in
  ToastMemberJoined newMemberName discount.

(** The toasts of one successful response, in emission order. *)
Definition reconcile (st : PageState) (data : LobbyData) : list Toast :=
  (if (prevMemberCountRef st >? 0) && (member_count data >? prevMemberCountRef st)
   then [memberJoinedToast data] else [])
  ++
  (if JS.str_eq (prevStatusRef st) "OPEN" && JS.str_eq (status data) "LOCKED"
   then [ToastGroupLocked] else []).

(** The write-through to the active-lobby pointer after a successful
    response. *)
Definition updatePointer (data : LobbyData) (ls : Storage) : Storage :=
  let ls1 :=
    if JS.str_eq (status data) "OPEN"
    then <[ACTIVE_BUSINESS_KEY := business_id data]>
           (<[ACTIVE_LOBBY_KEY := lobby_code data]> ls)
    else ls in
  if JS.str_eq (status data) "EXPIRED" || JS.str_eq (status data) "CONFIRMED"
  then clearActiveLobby ls1
  else ls1.

(** [fetchLobbyData], one invocation, given what the request yields. *)
Definition fetchLobbyData (lobbyCode : string) (r : FetchResult)
           (st : PageState) (ls : Storage)
  : PageState * Storage * list Toast :=
  if JS.str_eq lobbyCode "" then (st, ls, [])          (* if (!lobbyCode) return *)
  else
    match r with
    | NotOk httpStatus =>
        if httpStatus =? 404
        then (mkPage (lobby st) false (Some MSG_NOT_FOUND) (hasJoined st)
                     (prevMemberCountRef st) (prevStatusRef st), ls, [])
        else (mkPage (lobby st) false (Some MSG_NO_SERVER) (hasJoined st)
                     (prevMemberCountRef st) (prevStatusRef st), ls, [])
    | Rejected =>
        (mkPage (lobby st) false (Some MSG_NO_SERVER) (hasJoined st)
                (prevMemberCountRef st) (prevStatusRef st), ls, [])
    | Ok data =>
        (mkPage (Some data) false None (hasJoined st)
                (member_count data) (status data),
         updatePointer data ls,
         reconcile st data)
    end.

(** A sequence of invocations, each on the state the previous one left. *)
Fixpoint polls (lobbyCode : string) (rs : list FetchResult)
         (st : PageState) (ls : Storage) : PageState * Storage * list Toast :=
  match rs with
  | [] => (st, ls, [])
  | r :: rs' =>
      let '(st1, ls1, ts1) := fetchLobbyData lobbyCode r st ls in
      let '(st2, ls2, ts2) := polls lobbyCode rs' st1 ls1 in
      (st2, ls2, ts1 ++ ts2)
  end.

End Fetch.

(** ** View-state gate (the body of LobbyPage after the hooks) *)

Record JoinGateProps := mkJoinGate {
  jg_lobbyCode : string;
  jg_leaderName : string;
  jg_businessName : option string;
  jg_isLoggedIn : bool;
  jg_userName : option string
}.

Inductive OfferCardView :=
  | EmptyLobbyCTA
  | BusinessOffer (business : BusinessListing)
                  (currentTier : option DiscountTier)
                  (currentPriceTier : option PricingTier)
                  (price : option Z)
                  (struckBasePrice : bool).

Inductive Screen :=
  | LoadingScreen
  | NotFoundScreen
  | JoinGateScreen (props : JoinGateProps)
  | ConfirmedScreen (groupSize : Z) (lobbyCode : string)
                    (currentTier : option DiscountTier)
  | NormalScreen (l : LobbyData) (card : OfferCardView).

Module View.

(** [user && lobby.members.some(m => m.user_name === user.name)] *)
Definition isUserInLobby (user : option User) (l : LobbyData) : bool :=
  match user with
  | Some u => JS.some (fun m => JS.str_eq (user_name m) (usr_name u)) (members l)
  | None => false
  end.

(** The business card, or the empty-lobby call to action. *)
Definition offerCard (l : LobbyData) : OfferCardView :=
  match getBusinessById (business_id l) with
  | None => EmptyLobbyCTA
  | Some business =>
      let currentTier := TierEngine.currentTier (member_count l) in
      let baseTier := OfferCard.baseTier business in
      let currentPriceTier := OfferCard.currentPriceTier business (member_count l) in
      BusinessOffer business currentTier currentPriceTier
                    (OfferCard.shownPrice currentPriceTier)
                    (OfferCard.showsStruckBasePrice baseTier currentPriceTier)
  end.

(** The not-found branch reads the saved pointer and clears it when it
    names this lobby. *)
Definition clearIfSaved (lobbyCode : string) (ls : Storage) : Storage :=
  match ls !! ACTIVE_LOBBY_KEY with
  | Some savedLobby =>
      if JS.str_eq savedLobby lobbyCode then clearActiveLobby ls else ls
  | None => ls
  end.

(** One render of [LobbyPage]: the screen returned and the storage left
    behind. *)
Definition render (lobbyCode : string) (user : option User)
           (st : PageState) (ls : Storage) : Screen * Storage :=
  if isLoading st then (LoadingScreen, ls)
  else
    match JS.truthy_str (error st), lobby st with
    | false, Some l =>
        let business := getBusinessById (business_id l) in
        if negb (isUserInLobby user l) && negb (hasJoined st) then
          (JoinGateScreen
             (mkJoinGate lobbyCode (leader_name l) (b_name <$> business)
                         (match user with Some _ => true | None => false end)
                         (usr_name <$> user)),
           ls)
        else if JS.str_eq (status l) "CONFIRMED" then
          (ConfirmedScreen (member_count l) (lobby_code l)
                           (TierEngine.currentTier (member_count l)),
           ls)
        else (NormalScreen l (offerCard l), ls)
    | _, _ => (NotFoundScreen, clearIfSaved lobbyCode ls)
    end.

Record TickOutcome := mkTick {
  tk_state : PageState;
  tk_storage : Storage;
  tk_toasts : list Toast;
  tk_screen : Screen
}.

(** One invocation of [fetchLobbyData] followed by the render its state
    updates cause. *)
Definition fetchAndRender (lobbyCode : string) (user : option User)
           (r : FetchResult) (st : PageState) (ls : Storage) : TickOutcome :=
  let '(st1, ls1, ts) := Fetch.fetchLobbyData lobbyCode r st ls in
  let '(scr, ls2) := render lobbyCode user st1 ls1 in
  mkTick st1 ls2 ts scr.

End View.

(** The decision order of the view-state gate in the words of the
    specification, over the seven facts it names. *)
Inductive ScreenKind :=
  | KLoading | KNotFound | KJoinGate | KConfirmed | KNormal | KNormalEmptyLobby.

Module GateSpec.

Definition selectScreen
           (fetchInFlightOnFirstLoad fetchFailedOrLobbyAbsent
            identityAbsent amongMembersByName joinedThisSession
            statusConfirmed businessResolves : bool) : ScreenKind :=
  if fetchInFlightOnFirstLoad then KLoading
  else if fetchFailedOrLobbyAbsent then KNotFound
  else if (identityAbsent || negb amongMembersByName) && negb joinedThisSession
       then KJoinGate
  else if statusConfirmed then KConfirmed
  else if businessResolves then KNormal
  else KNormalEmptyLobby.

Definition kindOf (s : Screen) : ScreenKind :=
  match s with
  | LoadingScreen => KLoading
  | NotFoundScreen => KNotFound
  | JoinGateScreen _ => KJoinGate
  | ConfirmedScreen _ _ _ => KConfirmed
  | NormalScreen _ EmptyLobbyCTA => KNormalEmptyLobby
  | NormalScreen _ (BusinessOffer _ _ _ _ _) => KNormal
  end.

(** The facts, read off a page state and an identity. *)
Definition identityAbsent (user : option User) : bool :=
  match user with Some _ => false | None => true end.

Definition lobbyAbsent (st : PageState) : bool :=
  match lobby st with Some _ => false | None => true end.

Definition onLobby (f : LobbyData -> bool) (st : PageState) : bool :=
  match lobby st with Some l => f l | None => false end.

Definition nameAmongMembers (user : option User) (l : LobbyData) : bool :=
  match user with
  | Some u => bool_decide (Exists (fun m => user_name m = usr_name u) (members l))
  | None => false
  end.

End GateSpec.

(** ** Join gate (JoinGate.handleJoin) *)

Module Join.

(** A string of the embedding is the UTF-8 encoding of the JavaScript
    string. [String.prototype.trim] removes the code points of WhiteSpace
    and LineTerminator from both ends; they are listed here by their
    encodings.

    One byte: U+0009 to U+000D (TAB, LF, VT, FF, CR) and U+0020. *)
Definition isSpace (c : ascii) : bool :=
  let n := nat_of_ascii c in
  ((9 <=? n) && (n <=? 13))%nat || (n =? 32)%nat.

(** Two bytes: U+00A0 (no-break space), C2 A0. *)
Definition isSpace2 (c1 c2 : ascii) : bool :=
  ((nat_of_ascii c1 =? 194) && (nat_of_ascii c2 =? 160))%nat.

(** Three bytes: U+1680 (E1 9A 80); U+2000 to U+200A, U+2028, U+2029 and
    U+202F (E2 80 80..8A, A8, A9, AF); U+205F (E2 81 9F); U+3000
    (E3 80 80); U+FEFF (EF BB BF). *)
Definition isSpace3 (c1 c2 c3 : ascii) : bool :=
  let b1 := nat_of_ascii c1 in
  let b2 := nat_of_ascii c2 in
  let b3 := nat_of_ascii c3 in
  (((b1 =? 225) && (b2 =? 154) && (b3 =? 128))
   || ((b1 =? 226) && (b2 =? 128)
       && (((128 <=? b3) && (b3 <=? 138)) || (b3 =? 168) || (b3 =? 169) || (b3 =? 175)))
   || ((b1 =? 226) && (b2 =? 129) && (b3 =? 159))
   || ((b1 =? 227) && (b2 =? 128) && (b3 =? 128))
   || ((b1 =? 239) && (b2 =? 187) && (b3 =? 191)))%nat.

(** Removes every white-space code point at the head of a byte sequence;
    [sp2] and [sp3] recognise the two-byte and three-byte encodings in the
    order in which the bytes are met. *)
Fixpoint dropSpacesBy (sp2 : ascii -> ascii -> bool)
         (sp3 : ascii -> ascii -> ascii -> bool) (cs : list ascii) : list ascii :=
  match cs with
  | c1 :: r1 =>
      if isSpace c1 then dropSpacesBy sp2 sp3 r1
      else
        match r1 with
        | c2 :: r2 =>
            if sp2 c1 c2 then dropSpacesBy sp2 sp3 r2
            else
              match r2 with
              | c3 :: r3 => if sp3 c1 c2 c3 then dropSpacesBy sp2 sp3 r3 else cs
              | [] => cs
              end
        | [] => cs
        end
  | [] => []
  end.

(** Leading white space, on the bytes in reading order. *)
Definition dropSpaces (cs : list ascii) : list ascii :=
  dropSpacesBy isSpace2 isSpace3 cs.

(** Trailing white space, on the bytes in reverse order: in well-formed
    UTF-8 an encoding at the very end of the bytes is a code point of its
    own. *)
Definition dropSpacesEnd (reversed : list ascii) : list ascii :=
  dropSpacesBy (fun c2 c1 => isSpace2 c1 c2) (fun c3 c2 c1 => isSpace3 c1 c2 c3) reversed.

(** [s.trim()] *)
Definition trim (s : string) : string :=
  string_of_list_ascii
    (rev (dropSpacesEnd (rev (dropSpaces (list_ascii_of_string s))))).

(** The UTF-16 code units that the code point led by a byte takes: none for
    a continuation byte, two for the lead byte of a four-byte encoding. *)
Definition utf16Units (c : ascii) : nat :=
  let b := nat_of_ascii c in
  if (b <? 128)%nat then 1%nat
  else if (b <? 192)%nat then 0%nat
  else if (b <? 240)%nat then 1%nat
  else 2%nat.

(** [s.length] *)
Definition length16 (s : string) : nat :=
  list_sum (map utf16Units (list_ascii_of_string s)).

(** What the join request yields. *)
Inductive JoinResult :=
  | JoinRejected (message : string)      (* fetch rejects with err.message *)
  | JoinNotOk (detail : option string)   (* !response.ok, body {detail} *)
  | JoinOk.

Definition MSG_ENTER_NAME : string := "Vennligst skriv inn et navn".
Definition MSG_JOIN_FAILED : string := "Kunne ikke bli med i gruppen".

(** [s || fallback] on a possibly missing string. *)
Definition orMessage (s : option string) (fallback : string) : string :=
  match s with
  | Some m => if JS.truthy_str (Some m) then m else fallback
  | None => fallback
  end.

(** Everything one call of [handleJoin] does. *)
Record JoinOutcome := mkOutcome {
  jo_requests : list HttpRequest;   (* HTTP requests sent *)
  jo_login : option string;         (* login(name), when called *)
  jo_error : option string;         (* the error shown under the input *)
  jo_toasts : list Toast;
  jo_joinSuccess : option string    (* onJoinSuccess(name), when called *)
}.

Definition handleJoin (props : JoinGateProps) (displayName : string)
           (r : JoinResult) : JoinOutcome :=
  let name := trim displayName in
  if JS.str_eq name "" then
    mkOutcome [] None (Some MSG_ENTER_NAME) [] None
  else
    let login := if jg_isLoggedIn props then None else Some name in
    let request := PostJoin (jg_lobbyCode props) name in
    match r with
    | JoinOk =>
        mkOutcome [request] login None [ToastJoinedGroup] (Some name)
    | JoinNotOk detail =>
        mkOutcome [request] login
                  (Some (orMessage (Some (orMessage detail MSG_JOIN_FAILED)) MSG_JOIN_FAILED))
                  [ToastJoinFailed] None
    | JoinRejected message =>
        mkOutcome [request] login
                  (Some (orMessage (Some message) MSG_JOIN_FAILED))
                  [ToastJoinFailed] None
    end.

(** [onJoinSuccess] as LobbyPage passes it: [setHasJoined(true)]. *)
Definition applyOutcome (o : JoinOutcome) (st : PageState) : PageState :=
  match jo_joinSuccess o with
  | Some _ => mkPage (lobby st) (isLoading st) (error st) true
                     (prevMemberCountRef st) (prevStatusRef st)
  | None => st
  end.

End Join.

(** ** Leave group (the "Forlat gruppe" button) *)

Module Leave.

Record LeaveOutcome := mkLeave {
  lv_storage : Storage;
  lv_requests : list HttpRequest;
  lv_toasts : list Toast;
  lv_navigate : option string       (* router.push(path) *)
}.

(** The click handler; [confirmed] is the answer to [confirm(...)]. *)
Definition leaveGroup (confirmed : bool) (ls : Storage) : LeaveOutcome :=
  if confirmed
  then mkLeave (clearActiveLobby ls) [] [ToastLeftGroup] (Some "/")
  else mkLeave ls [] [] None.

End Leave.

(** ** Countdown (CountdownTimer) *)

Module Countdown.

(** React state of the component, and the value of [isExpired] that the
    live effect closure captured when it was set up. *)
Record TimerState := mkTimer {
  timeRemaining : Z;
  isExpired : bool;
  capturedIsExpired : bool
}.

(** [useState(0)], [useState(false)]; no effect has run yet. *)
Definition initialTimer : TimerState := mkTimer 0 false false.

(** [Math.max(0, Math.floor((expires - now) / 1000))] on millisecond
    timestamps. *)
Definition remainingAt (expires now : Z) : Z :=
  Z.max 0 ((expires - now) / 1000).

(** [calculateRemaining] run at clock reading [now]; the number returned
    counts the calls of [onExpired]. *)
Definition calculateRemaining (expires now : Z) (st : TimerState)
  : TimerState * nat :=
  let remaining := remainingAt expires now in
  if (remaining =? 0) && negb (capturedIsExpired st)
  then (mkTimer remaining true (capturedIsExpired st), 1%nat)
  else (mkTimer remaining (isExpired st) (capturedIsExpired st), 0%nat).

(** The effect body: a closure over the current [isExpired] is created
    and called once at once; the interval then calls the same closure. *)
Definition runEffect (expires now : Z) (st : TimerState) : TimerState * nat :=
  calculateRemaining expires now
    (mkTimer (timeRemaining st) (isExpired st) (isExpired st)).

(** The re-render after a state update: when [isExpired] differs from the
    captured value the dependency array changed, the interval is cleared
    and the effect runs again, at clock reading [now]. *)
Definition commit (expires now : Z) (r : TimerState * nat) : TimerState * nat :=
  let '(st, fired) := r in
  if eqb (isExpired st) (capturedIsExpired st) then (st, fired)
  else
    let '(st', fired') := runEffect expires now st in
    (st', (fired + fired')%nat).

Inductive TimerEvent :=
  | Tick (now commitNow : Z)          (* the interval fires *)
  | ParentRender (now commitNow : Z). (* a new onExpired prop: effect re-runs *)

Definition reading (e : TimerEvent) : Z :=
  match e with Tick now _ => now | ParentRender now _ => now end.

Definition mount (expires now commitNow : Z) : TimerState * nat :=
  commit expires commitNow (runEffect expires now initialTimer).

Definition step (expires : Z) (e : TimerEvent) (st : TimerState)
  : TimerState * nat :=
  match e with
  | Tick now commitNow =>
      commit expires commitNow (calculateRemaining expires now st)
  | ParentRender now commitNow =>
      commit expires commitNow (runEffect expires now st)
  end.

(** State and number of callback calls after each event. *)
Fixpoint run (expires : Z) (es : list TimerEvent) (st : TimerState)
  : list (TimerState * nat) :=
  match es with
  | [] => []
  | e :: es' =>
      let r := step expires e st in
      r :: run expires es' (fst r)
  end.

(** The whole life of a mounted timer: the mount, then the events. *)
Definition life (expires now commitNow : Z) (es : list TimerEvent)
  : list (TimerState * nat) :=
  let r := mount expires now commitNow in
  r :: run expires es (fst r).

(** Between events the live closure has captured the current
    [isExpired]. *)
Definition settled (st : TimerState) : Prop :=
  capturedIsExpired st = isExpired st.

Inductive TimerView :=
  | ShowsExpired
  | ShowsTime (minutes seconds : Z) (isUrgent : bool).

(** The running display for [remaining] seconds: minutes, seconds, and
    the urgent styling under 300 seconds. *)
Definition showTime (remaining : Z) : TimerView :=
  ShowsTime (remaining / 60) (remaining mod 60) (remaining <? 300).

(** What the component returns for a state. *)
Definition view (st : TimerState) : TimerView :=
  if isExpired st then ShowsExpired else showTime (timeRemaining st).

(** After an event read at clock [t] the component shows either the
    expired state or the positive remaining seconds computed at [t]. *)
Definition showsAt (expires t : Z) (st : TimerState) : Prop :=
  0 <= timeRemaining st /\
  (view st = ShowsExpired \/
   (0 < remainingAt expires t /\ view st = showTime (remainingAt expires t))).

(** What is on display after each of a sequence of clock readings: the
    expired state from the first reading on at which the remaining time is
    zero, and before it the minutes and seconds of the remaining time at
    that reading. *)
Fixpoint shownAfter (expires : Z) (seen : bool) (readings : list Z) : list TimerView :=
  match readings with
  | [] => []
  | t :: rest =>
      let seen' := seen || (remainingAt expires t =? 0) in
      (if seen' then ShowsExpired else showTime (remainingAt expires t))
        :: shownAfter expires seen' rest
  end.

(** Marks with 1 the first clock reading at which the remaining time is
    zero, and every other reading with 0. *)
Fixpoint firstZero (expires : Z) (seen : bool) (readings : list Z) : list nat :=
  match readings with
  | [] => []
  | t :: rest =>
      if seen then 0%nat :: firstZero expires true rest
      else if remainingAt expires t =? 0
           then 1%nat :: firstZero expires true rest
           else 0%nat :: firstZero expires false rest
  end.

End Countdown.

(** ** Vocabulary for statements about reconciliation *)

Module Reconcile.

Definition isMemberJoined (t : Toast) : bool :=
  match t with ToastMemberJoined _ _ => true | _ => false end.

Definition isGroupLocked (t : Toast) : bool :=
  match t with ToastGroupLocked => true | _ => false end.

(** The "member joined" notifications among some toasts. *)
Definition memberJoined (ts : list Toast) : list Toast :=
  List.filter isMemberJoined ts.

(** The number of "group locked" notifications among some toasts. *)
Definition groupLockedCount (ts : list Toast) : nat :=
  length (List.filter isGroupLocked ts).

(** The snapshots that a sequence of fetch results delivers. *)
Fixpoint snapshots (rs : list FetchResult) : list LobbyData :=
  match rs with
  | [] => []
  | Ok data :: rs' => data :: snapshots rs'
  | _ :: rs' => snapshots rs'
  end.

(** The number of places in a sequence of statuses, read after the held
    status [prev], where OPEN is followed by LOCKED. *)
Fixpoint lockEdges (prev : string) (statuses : list string) : nat :=
  match statuses with
  | [] => 0%nat
  | s :: rest =>
      ((if bool_decide (prev = "OPEN" /\ s = "LOCKED") then 1 else 0)
       + lockEdges s rest)%nat
  end.

(** Every snapshot of the sequence satisfies the data-model invariant. *)
Definition history_wf (rs : list FetchResult) : Prop :=
  Forall snapshot_wf (snapshots rs).

End Reconcile.

(** ** The backend, as far as the page can affect it *)

Module Server.

Section Backend.
Context {ServerState : Type}.
Variable serve : ServerState -> HttpRequest -> ServerState.

(** The backend changes state only by serving requests. *)
Definition afterRequests (s : ServerState) (reqs : list HttpRequest) : ServerState :=
  fold_left serve reqs s.
End Backend.

End Server.

(** ** Concrete sessions used in examples *)

Module Examples.

Definition kari : User := mkUser "user_m1_abc123" "Kari".
Definition ola : User := mkUser "user_m2_def456" "Ola".

Definition fiveMembers : list MemberInfo :=
  [ mkMember "Kari" true; mkMember "Per" false; mkMember "Nils" false;
    mkMember "Anne" true; mkMember "Liv" false ].

(** An open lobby of five at Strike Zone Bowling, led by Kari. *)
Definition bowlingLobby : LobbyData :=
  mkLobby "lobby-1" "ABC123" "1" "Kari" "OPEN" 5 fiveMembers
          "2025-01-01T12:00:00Z" "2025-01-01T12:30:00Z".

(** The same lobby after the group locked. *)
Definition lockedLobby : LobbyData :=
  mkLobby "lobby-1" "ABC123" "1" "Kari" "LOCKED" 5 fiveMembers
          "2025-01-01T12:00:00Z" "2025-01-01T12:30:00Z".

Definition confirmedLobby : LobbyData :=
  mkLobby "lobby-1" "ABC123" "1" "Kari" "CONFIRMED" 5 fiveMembers
          "2025-01-01T12:00:00Z" "2025-01-01T12:30:00Z".

(** The lobby when only Kari was in it, and after Per joined. *)
Definition lobbyOfOne : LobbyData :=
  mkLobby "lobby-1" "ABC123" "1" "Kari" "OPEN" 1 [mkMember "Kari" false]
          "2025-01-01T12:00:00Z" "2025-01-01T12:30:00Z".

Definition lobbyOfTwo : LobbyData :=
  mkLobby "lobby-1" "ABC123" "1" "Kari" "OPEN" 2
          [mkMember "Kari" false; mkMember "Per" false]
          "2025-01-01T12:00:00Z" "2025-01-01T12:30:00Z".

(** The page once a snapshot has been fetched. *)
Definition pageShowing (l : LobbyData) : PageState :=
  mkPage (Some l) false None false (member_count l) (status l).

(** A browser whose active-lobby pointer names ABC123 and that holds a
    guest identity. *)
Definition savedPointer : Storage :=
  <[ACTIVE_LOBBY_KEY := "ABC123"]>
    (<[ACTIVE_BUSINESS_KEY := "1"]>
       (<[STORAGE_KEY := "kari"]> ∅)).

End Examples.

(** ** Progress bar and share panel (ProgressBar, the share block of
       LobbyPage, components/ShareButton) *)

Module ProgressBar.

(** [DISCOUNT_TIERS[DISCOUNT_TIERS.length - 1].size] *)
Definition maxSize : Z :=
  match last DISCOUNT_TIERS with Some t => dt_size t | None => 0 end.

(** [Math.min((currentCount / maxSize) * 100, 100)], the width of the bar
    in percent, as a rational: the quotient by 8 and its multiple by 100
    are exact in binary floating point for every count a lobby can have. *)
Definition progress (currentCount : Z) : Q :=
  Qmin ((inject_Z currentCount / inject_Z maxSize) * 100) 100.

(** [currentCount >= tier.size], the filled style of a tier marker. *)
Definition isActive (currentCount : Z) (tier : DiscountTier) : bool :=
  currentCount >=? dt_size tier.

(** [tier.size === currentTier.size], the highlighted marker. *)
Definition isCurrent (currentTier tier : DiscountTier) : bool :=
  dt_size tier =? dt_size currentTier.

(** [nextTier.size - currentCount], the number in "N mer til d% rabatt". *)
Definition moreNeeded (currentCount : Z) (nextTier : DiscountTier) : Z :=
  dt_size nextTier - currentCount.

End ProgressBar.

Module ShareButton.

(** [DISCOUNT_TIERS.find(t => t.size > lobby.member_count)
     || DISCOUNT_TIERS[DISCOUNT_TIERS.length - 1]], the tier LobbyPage
    hands to the share button. *)
Definition nextTierOrTop (member_count : Z) : option DiscountTier :=
  JS.or_else (TierEngine.nextTier member_count) (last DISCOUNT_TIERS).

(** [Math.max(0, nextTierSize - currentMembers)] *)
Definition membersNeeded (nextTierSize currentMembers : Z) : Z :=
  Z.max 0 (nextTierSize - currentMembers).

(** The two share texts. *)
Inductive ShareText :=
  | NeedMore (needed discount : Z)   (* "Vi trenger N til for aa faa d% rabatt!" *)
  | AlreadyHave (discount : Z).      (* "Vi har allerede d% rabatt!" *)

Definition shareText (nextTierSize nextTierDiscount currentMembers : Z) : ShareText :=
  if membersNeeded nextTierSize currentMembers >? 0
  then NeedMore (membersNeeded nextTierSize currentMembers) nextTierDiscount
  else AlreadyHave nextTierDiscount.

(** The "+N for d%" badge on the invite button. *)
Definition showsBadge (nextTierSize currentMembers : Z) : bool :=
  membersNeeded nextTierSize currentMembers >? 0.

(** What the browser does with [navigator.share]. *)
Inductive ShareApi :=
  | NoShareApi        (* navigator.share is undefined *)
  | ShareResolves
  | ShareAborted      (* rejects with an AbortError: the user cancelled *)
  | ShareFails.       (* rejects with any other error *)

Inductive ShareToast :=
  | ToastShared | ToastLinkCopied | ToastCopyFailed.

Record ShareOutcome := mkShare {
  sh_toasts : list ShareToast;
  sh_clipboard : list string;    (* calls of navigator.clipboard.writeText *)
  sh_isCopied : bool
}.

(** [copyToClipboard]; [clipboardOk] says whether [writeText] resolves. *)
Definition copyToClipboard (lobbyUrl : string) (clipboardOk : bool) : ShareOutcome :=
  if clipboardOk
  then mkShare [ToastLinkCopied] [lobbyUrl] true
  else mkShare [ToastCopyFailed] [lobbyUrl] false.

(** [handleShare] *)
Definition handleShare (lobbyUrl : string) (api : ShareApi) (clipboardOk : bool)
  : ShareOutcome :=
  match api with
  | ShareResolves => mkShare [ToastShared] [] false
  | NoShareApi => copyToClipboard lobbyUrl clipboardOk
  | ShareAborted => mkShare [] [] false
  | ShareFails => copyToClipboard lobbyUrl clipboardOk
  end.

End ShareButton.

(** ** Member list (MemberList) *)

Module MemberList.

(** [members.filter(m => m.is_ready).length] *)
Definition readyCount (ms : list MemberInfo) : nat :=
  length (JS.filter is_ready ms).

(** [member.user_name === currentUserName] *)
Definition isCurrentUser (currentUserName : string) (m : MemberInfo) : bool :=
  JS.str_eq (user_name m) currentUserName.

(** [isCurrentUser && lobbyStatus === 'OPEN' && !isReady]: the "Klar!"
    button of a row. *)
Definition showsReadyButton (currentUserName lobbyStatus : string) (m : MemberInfo) : bool :=
  isCurrentUser currentUserName m && JS.str_eq lobbyStatus "OPEN" && negb (is_ready m).

(** [(!isCurrentUser || isReady)]: the check mark or the empty ring. *)
Definition showsIndicator (currentUserName : string) (m : MemberInfo) : bool :=
  negb (isCurrentUser currentUserName m) || is_ready m.

Inductive ReadyResult :=
  | ReadyRejected              (* fetch rejects, or the body does not parse *)
  | ReadyNotOk                 (* !response.ok *)
  | ReadyOk (all_ready : bool).

Inductive ReadyToast :=
  | ToastAllReady | ToastMarkedReady | ToastReadyFailed.

Record ReadyOutcome := mkReady {
  ro_requests : list HttpRequest;
  ro_toasts : list ReadyToast;
  ro_refetch : bool              (* onReadyToggle() was called *)
}.

(** [handleReadyToggle] *)
Definition handleReadyToggle (isToggling : bool)
           (lobbyStatus lobbyCode currentUserName : string) (r : ReadyResult)
  : ReadyOutcome :=
  if isToggling || negb (JS.str_eq lobbyStatus "OPEN")
  then mkReady [] [] false
  else
    let request := PostReady lobbyCode currentUserName in
    match r with
    | ReadyOk all_ready =>
        mkReady [request] [if all_ready then ToastAllReady else ToastMarkedReady] true
    | ReadyNotOk => mkReady [request] [] false
    | ReadyRejected => mkReady [request] [ToastReadyFailed] false
    end.

End MemberList.

(** ** Confirmed screen price and ticket (LobbyPage, components/ConfirmedTicket,
       the tickets page) *)

Module Ticket.

(** [Math.round]: the nearest integer, halves rounded up. *)
Definition round (x : Q) : Z := Qfloor (x + (1 # 2)).

(** [const basePrice = 250] of the confirmed screen. *)
Definition basePrice : Z := 250.

(** [Math.round(basePrice * (1 - currentTier.discount / 100))] *)
Definition currentPrice (discount : Z) : Z :=
  round (inject_Z basePrice * (1 - inject_Z discount / 100)).

(** ConfirmedTicket: [(originalPrice - pricePerPerson) * groupSize] *)
Definition totalSaved (originalPrice pricePerPerson groupSize : Z) : Z :=
  (originalPrice - pricePerPerson) * groupSize.

(** ConfirmedTicket: [Math.round((1 - pricePerPerson / originalPrice) * 100)] *)
Definition discountPercent (originalPrice pricePerPerson : Z) : Z :=
  round ((1 - inject_Z pricePerPerson / inject_Z originalPrice) * 100).

(** The fields of the tickets page's [Ticket] that enter its sums. *)
Record TicketInfo := mkTicket {
  tkt_lobbyCode : string;
  tkt_groupSize : Z;
  tkt_pricePerPerson : Z;
  tkt_originalPrice : Z
}.

(** [calculateLifetimeSavings]: a left-to-right [reduce] from 0. *)
Definition calculateLifetimeSavings (tickets : list TicketInfo) : Z :=
  fold_left
    (fun total ticket =>
       let savingsPerPerson := tkt_originalPrice ticket - tkt_pricePerPerson ticket in
       let totalSavings := savingsPerPerson * tkt_groupSize ticket in
       total + totalSavings)
    tickets 0.

(** [tickets.reduce((sum, t) => sum + t.groupSize, 0)] *)
Definition totalPeople (tickets : list TicketInfo) : Z :=
  fold_left (fun sum t => sum + tkt_groupSize t) tickets 0.

End Ticket.

(** ** Guest identity (context/AuthContext) *)

Module Auth.

Section Codec.

(** [JSON.stringify] on a user, and [JSON.parse] read at type [User] as the
    source casts it; [None] stands for a parse that throws. *)
Variable stringify : User -> string.
Variable parse : string -> option User.

(** The effect that runs once at start-up: the user found in storage. *)
Definition hydrate (ls : Storage) : option User :=
  match ls !! STORAGE_KEY with
  | Some stored => if JS.truthy_str (Some stored) then parse stored else None
  | None => None
  end.

(** [login(name)]; [id] is what [generateUserId()] returns. *)
Definition login (id name : string) (ls : Storage) : User * Storage :=
  let newUser := mkUser id (Join.trim name) in
  (newUser, <[STORAGE_KEY := stringify newUser]> ls).

End Codec.

(** [logout()] *)
Definition logout (ls : Storage) : option User * Storage :=
  (None,
   delete ACTIVE_BUSINESS_KEY (delete ACTIVE_LOBBY_KEY (delete STORAGE_KEY ls))).

End Auth.

(** ** Login page (app/login, handleSubmit) *)

Module LoginPage.

Inductive LoginError :=
  | ErrEnterName     (* 'Vennligst skriv inn et navn' *)
  | ErrTooShort.     (* the name must have at least 2 characters *)

Record SubmitOutcome := mkSubmit {
  su_error : option LoginError;
  su_login : option string;       (* login(name), when called *)
  su_navigate : option string     (* router.push(path) *)
}.

Definition handleSubmit (displayName : string) : SubmitOutcome :=
  if JS.str_eq (Join.trim displayName) ""
  then mkSubmit (Some ErrEnterName) None None
  else if (Join.length16 (Join.trim displayName) <? 2)%nat
  then mkSubmit (Some ErrTooShort) None None
  else mkSubmit None (Some (Join.trim displayName)) (Some "/").

End LoginPage.

(** ** Landing page navigation bar (components/LandingPage, Navbar) *)

Module Landing.

Inductive ValidateResult :=
  | ValidateRejected     (* fetch rejects *)
  | ValidateNotOk        (* !response.ok *)
  | ValidateOk.

Record NavState := mkNav {
  nav_activeLobbyCode : option string;
  nav_isValidLobby : bool
}.

Record CheckOutcome := mkCheck {
  ck_nav : NavState;
  ck_storage : Storage;
  ck_requests : list HttpRequest
}.

(** [checkActiveLobby], with [validateLobby] inlined; [r] is what the
    validation request yields when one is made. *)
Definition checkActiveLobby (r : ValidateResult) (ls : Storage) : CheckOutcome :=
  match ls !! ACTIVE_LOBBY_KEY with
  | Some savedLobby =>
      if JS.truthy_str (Some savedLobby) then
        match r with
        | ValidateNotOk =>
            mkCheck (mkNav None false) (clearActiveLobby ls) [GetLobby savedLobby]
        | ValidateOk =>
            mkCheck (mkNav (Some savedLobby) true) ls [GetLobby savedLobby]
        | ValidateRejected =>
            mkCheck (mkNav (Some savedLobby) false) ls [GetLobby savedLobby]
        end
      else mkCheck (mkNav None false) ls []
  | None => mkCheck (mkNav None false) ls []
  end.

(** [hasMounted && activeLobbyCode && isValidLobby]: the "Min gruppe"
    link is shown instead of "Start en gruppe". *)
Definition showsMyGroup (hasMounted : bool) (nav : NavState) : bool :=
  hasMounted && JS.truthy_str (nav_activeLobbyCode nav) && nav_isValidLobby nav.

End Landing.

(** ** Starting a group (the not-found screen's "Start ny gruppe", and the
       business page's handleStartGroup) *)

Inductive CreateResult :=
  | CreateRejected                  (* fetch rejects *)
  | CreateNotOk                     (* !response.ok *)
  | CreateOk (lobby_code : string).

(** [`/lobby/${code}`] *)
Definition lobbyPath (code : string) : string := String.append "/lobby/" code.

Module NotFound.

Record StartOutcome := mkStart {
  so_storage : Storage;
  so_requests : list HttpRequest;
  so_navigate : option string
}.

(** The click handler of "Start ny gruppe" on the not-found screen. *)
Definition startNewGroup (user : option User) (r : CreateResult) (ls : Storage)
  : StartOutcome :=
  match user with
  | None => mkStart ls [] (Some "/login")
  | Some u =>
      match r with
      | CreateOk code =>
          mkStart (<[ACTIVE_LOBBY_KEY := code]> ls) [PostLobby (usr_name u)]
                  (Some (lobbyPath code))
      | _ => mkStart ls [PostLobby (usr_name u)] None
      end
  end.

End NotFound.

Module BusinessPage.

Inductive BizRequest :=
  | CreateLobbyFor (business_id leader_name : string)  (* POST /lobbies *)
  | PatchBusiness (code business_id : string).         (* PATCH /lobbies/{code} *)

Inductive BizToast :=
  | ToastGroupCreated | ToastCreateFailed | ToastActivityUpdated | ToastUpdateFailed.

Record BizOutcome := mkBiz {
  bo_storage : Storage;
  bo_requests : list BizRequest;
  bo_toasts : list BizToast;
  bo_navigate : option string
}.

(** [createNewGroup] *)
Definition createNewGroup (businessId : string) (user : option User)
           (r : CreateResult) (ls : Storage) : BizOutcome :=
  match user with
  | None => mkBiz ls [] [] None
  | Some u =>
      match r with
      | CreateOk code =>
          mkBiz (<[ACTIVE_BUSINESS_KEY := businessId]> (<[ACTIVE_LOBBY_KEY := code]> ls))
                [CreateLobbyFor businessId (usr_name u)]
                [ToastGroupCreated] (Some (lobbyPath code))
      | _ =>
          mkBiz ls [CreateLobbyFor businessId (usr_name u)] [ToastCreateFailed] None
      end
  end.

(** [activeLobbyBusinessId === businessId] on a [string | null]. *)
Definition sameBusiness (activeLobbyBusinessId : option string) (businessId : string) : bool :=
  match activeLobbyBusinessId with
  | Some b => JS.str_eq b businessId
  | None => false
  end.

(** [handleStartGroup]; [activeLobbyCode] and [activeLobbyBusinessId] are
    the component's state, [confirmReplace] the answer to [confirm(...)]
    when it is asked. *)
Definition handleStartGroup (businessId : string) (user : option User)
           (activeLobbyCode activeLobbyBusinessId : option string)
           (confirmReplace : bool) (r : CreateResult) (ls : Storage) : BizOutcome :=
  match user with
  | None => mkBiz ls [] [] (Some "/login")
  | Some _ =>
      if JS.truthy_str activeLobbyCode && sameBusiness activeLobbyBusinessId businessId
      then mkBiz ls [] [] (lobbyPath <$> activeLobbyCode)
      else if JS.truthy_str activeLobbyCode && JS.truthy_str activeLobbyBusinessId
              && negb (sameBusiness activeLobbyBusinessId businessId)
      then
        if confirmReplace
        then createNewGroup businessId user r (clearActiveLobby ls)
        else mkBiz ls [] [] (lobbyPath <$> activeLobbyCode)
      else createNewGroup businessId user r ls
  end.

(** [attachBusinessToLobby]; [patchOk] says whether the PATCH request comes
    back with [response.ok]. *)
Definition attachBusinessToLobby (businessId : string)
           (activeLobbyCode activeLobbyBusinessId : option string)
           (confirmSwitch : bool) (patchOk : bool) (ls : Storage) : BizOutcome :=
  match activeLobbyCode with
  | Some code =>
      if negb (JS.truthy_str (Some code)) then mkBiz ls [] [] None
      else if JS.truthy_str activeLobbyBusinessId
              && negb (sameBusiness activeLobbyBusinessId businessId)
              && negb confirmSwitch
      then mkBiz ls [] [] None
      else if patchOk
      then mkBiz (<[ACTIVE_BUSINESS_KEY := businessId]> ls)
                 [PatchBusiness code businessId] [ToastActivityUpdated]
                 (Some (lobbyPath code))
      else mkBiz ls [PatchBusiness code businessId] [ToastUpdateFailed] None
  | None => mkBiz ls [] [] None
  end.

End BusinessPage.

(** ** Vocabulary for statements about the held snapshot *)

Module Held.

(** The member count and the status of a held snapshot; the initial values
    of the two refs when none is held. *)
Definition countOf (l : option LobbyData) : Z :=
  match l with Some d => member_count d | None => 0 end.

Definition statusOf (l : option LobbyData) : string :=
  match l with Some d => status d | None => "" end.

(** The error state that a fetch result leaves. *)
Definition errorOf (r : FetchResult) : option string :=
  match r with
  | Ok _ => None
  | NotOk c => if c =? 404 then Some MSG_NOT_FOUND else Some MSG_NO_SERVER
  | Rejected => Some MSG_NO_SERVER
  end.

End Held.

(** ** Strings outside ASCII used in examples, by their UTF-8 bytes *)

Module Unicode.

Definition bytes (bs : list nat) : string :=
  string_of_list_ascii (map ascii_of_nat bs).

(** U+00A0, the no-break space. *)
Definition nbsp : string := bytes [194; 160]%nat.

(** U+3000 and U+FEFF, both white space for [trim]. *)
Definition ideographicSpace : string := bytes [227; 128; 128]%nat.
Definition byteOrderMark : string := bytes [239; 187; 191]%nat.

(** U+200B, the zero-width space, which [trim] keeps. *)
Definition zeroWidthSpace : string := bytes [226; 128; 139]%nat.

(** The one-letter name A-ring (U+00C5), and the name "Aase" spelt with
    it. *)
Definition aRing : string := bytes [195; 133]%nat.
Definition aRingSe : string := bytes [195; 133; 115; 101]%nat.

(** U+1F600, one code point, two UTF-16 code units. *)
Definition grinningFace : string := bytes [240; 159; 152; 128]%nat.

End Unicode.

(** ** Facts about the tier engine *)

Section TierEngineFacts.
Import TierEngine.

Lemma last_filter_split {A} (p : A -> bool) (xs : list A) (x : A) :
  last (List.filter p xs) = Some x ->
  exists pre post,
    xs = pre ++ x :: post /\ p x = true /\ Forall (fun u => p u = false) post.
Proof.
  induction xs as [|a xs IH]; simpl; intros H; [discriminate|].
  destruct (p a) eqn:Hpa.
  - destruct (List.filter p xs) as [|b l] eqn:Hf.
    + simpl in H. injection H as <-.
      exists [], xs. repeat split; auto.
      apply Forall_forall. intros u Hu.
      destruct (p u) eqn:Hpu; auto.
      assert (Hin : In u (List.filter p xs)) by (apply filter_In; split; auto; apply list_elem_of_In; auto).
      rewrite Hf in Hin. destruct Hin.
    + assert (Hl : last (b :: l) = Some x) by (rewrite <- H; reflexivity).
      destruct (IH Hl) as (pre & post & -> & Hx & Hpost).
      exists (a :: pre), post. auto.
  - destruct (IH H) as (pre & post & -> & Hx & Hpost).
    exists (a :: pre), post. auto.
Qed.

Lemma last_filter_none {A} (p : A -> bool) (xs : list A) :
  last (List.filter p xs) = None -> Forall (fun u => p u = false) xs.
Proof.
  intros H. apply last_None in H.
  apply Forall_forall. intros u Hu.
  destruct (p u) eqn:Hpu; auto.
  assert (Hin : In u (List.filter p xs)) by (apply filter_In; split; auto; apply list_elem_of_In; auto).
  rewrite H in Hin. destruct Hin.
Qed.

(** The current tier of any table: last qualifying tier, else the floor. *)
Lemma currentTierOf_spec (tiers : list DiscountTier) (count : Z) (t : DiscountTier) :
  currentTierOf tiers count = Some t ->
  last_qualifying tiers count t \/ floor_tier tiers count t.
Proof.
  unfold currentTierOf, JS.or_else, JS.pop, JS.first, unlocked, JS.filter.
  destruct (last _) as [x|] eqn:Hl; intros H.
  - injection H as <-. left.
    destruct (last_filter_split _ _ _ Hl) as (pre & post & Heq & Hx & Hpost).
    exists pre, post. repeat split; auto; [lia|].
    eapply Forall_impl; [exact Hpost|]. simpl. intros u Hu. simpl in Hu. lia.
  - right. split; auto.
    apply last_filter_none in Hl.
    eapply Forall_impl; [exact Hl|]. simpl. intros u Hu. simpl in Hu. lia.
Qed.

(** A tier is never absent on a non-empty table. *)
Lemma currentTierOf_total (tiers : list DiscountTier) (count : Z) :
  tiers <> [] -> exists t, currentTierOf tiers count = Some t /\ In t tiers.
Proof.
  intros Hne. unfold currentTierOf, JS.or_else, JS.pop, JS.first, unlocked, JS.filter.
  destruct (last _) as [x|] eqn:Hl.
  - exists x. split; auto.
    destruct (last_filter_split _ _ _ Hl) as (pre & post & -> & _ & _).
    apply in_or_app. right. left. reflexivity.
  - destruct tiers as [|a tl]; [congruence|]. exists a. simpl. auto.
Qed.

(** On an ascending table the last qualifying tier is the qualifying
    tier of greatest size. *)
Lemma last_qualifying_greatest (tiers : list DiscountTier) (count : Z) (t : DiscountTier) :
  ascending tiers ->
  last_qualifying tiers count t ->
  forall u, In u tiers -> dt_size u <= count -> dt_size u <= dt_size t.
Proof.
  intros Hasc (pre & post & -> & Ht & Hpost) u Hu Hle.
  apply in_app_or in Hu. destruct Hu as [Hu|[<-|Hu]].
  - unfold ascending in Hasc. revert Hasc. clear -Hu.
    induction pre as [|a pre IH]; [destruct Hu|].
    simpl. intros Hs. apply StronglySorted_inv in Hs. destruct Hs as [Hs Hall].
    destruct Hu as [<-|Hu]; [|auto].
    rewrite Forall_forall in Hall.
    assert (dt_size a < dt_size t); [|lia].
    apply Hall. apply list_elem_of_In. apply in_or_app. right. left. reflexivity.
  - lia.
  - rewrite Forall_forall in Hpost.
    apply list_elem_of_In in Hu. specialize (Hpost u Hu). simpl in Hpost. lia.
Qed.

Lemma DISCOUNT_TIERS_ascending : ascending DISCOUNT_TIERS.
Proof.
  unfold ascending, DISCOUNT_TIERS.
  repeat (apply SSorted_cons; [|repeat constructor; simpl; lia]).
  apply SSorted_nil.
Qed.

End TierEngineFacts.

(** C6. For every member count [n] the current tier over the page's
    ascending discount table exists, and it is the last tier whose size
    does not exceed [n] (the one of greatest size among them), or, when no
    tier qualifies, the first tier of the table used as a floor; for
    [n = 5] it is the tier of size 4 with a 20 percent discount. *)
Theorem C6_current_tier_last_qualifying_or_floor :
  (forall n : Z,
      exists t,
        TierEngine.currentTier n = Some t /\
        In t DISCOUNT_TIERS /\
        ((TierEngine.last_qualifying DISCOUNT_TIERS n t /\
          forall u, In u DISCOUNT_TIERS -> dt_size u <= n -> dt_size u <= dt_size t)
         \/ TierEngine.floor_tier DISCOUNT_TIERS n t)) /\
  TierEngine.currentTier 5 = Some (mkTier 4 20 "20% rabatt").
Proof.
  split; [|reflexivity].
  intros n.
  destruct (currentTierOf_total DISCOUNT_TIERS n) as (t & Ht & Hin); [discriminate|].
  exists t. repeat split; auto.
  destruct (currentTierOf_spec _ _ _ Ht) as [Hq|Hf]; [left|right; exact Hf].
  split; [exact Hq|].
  apply last_qualifying_greatest; [apply DISCOUNT_TIERS_ascending|exact Hq].
Qed.

(** ** Facts about fetching and reconciliation *)

Section FetchFacts.
Import Fetch Reconcile.

Lemma nonempty_code (lobbyCode : string) :
  lobbyCode <> "" -> JS.str_eq lobbyCode "" = false.
Proof. intros H. unfold JS.str_eq. apply String.eqb_neq. exact H. Qed.

Lemma str_eq_true (s t : string) : JS.str_eq s t = true <-> s = t.
Proof. unfold JS.str_eq. apply String.eqb_eq. Qed.

Lemma str_eq_refl (s : string) : JS.str_eq s s = true.
Proof. apply str_eq_true. reflexivity. Qed.

Lemma str_eq_false (s t : string) : JS.str_eq s t = false <-> s <> t.
Proof. unfold JS.str_eq. apply String.eqb_neq. Qed.

(** One successful response: the state it leaves. *)
Lemma fetch_ok (lobbyCode : string) (data : LobbyData) (st : PageState) (ls : Storage) :
  lobbyCode <> "" ->
  fetchLobbyData lobbyCode (Ok data) st ls =
  (mkPage (Some data) false None (hasJoined st) (member_count data) (status data),
   updatePointer data ls, reconcile st data).
Proof. intros H. unfold fetchLobbyData. rewrite (nonempty_code _ H). reflexivity. Qed.

(** A failed response leaves both refs and the storage alone and emits
    nothing. *)
Lemma fetch_failed (lobbyCode : string) (r : FetchResult) (st : PageState) (ls : Storage) :
  (forall data, r <> Ok data) ->
  let out := fetchLobbyData lobbyCode r st ls in
  prevMemberCountRef out.1.1 = prevMemberCountRef st /\
  prevStatusRef out.1.1 = prevStatusRef st /\
  out.1.2 = ls /\ out.2 = [].
Proof.
  intros Hr. unfold fetchLobbyData.
  destruct (JS.str_eq lobbyCode ""); [simpl; auto|].
  destruct r as [|c|d]; [simpl; auto| |exfalso; eapply Hr; reflexivity].
  destruct (c =? 404); simpl; auto.
Qed.

(** The error state after an invocation is [null] or one of the two
    messages, both truthy. *)
Lemma fetch_error_shape (lobbyCode : string) (r : FetchResult) (st : PageState) (ls : Storage) :
  lobbyCode <> "" ->
  let e := error (fetchLobbyData lobbyCode r st ls).1.1 in
  (e = None /\ exists data, r = Ok data) \/
  (e = Some MSG_NOT_FOUND /\ r = NotOk 404) \/
  (e = Some MSG_NO_SERVER /\ forall data, r <> Ok data).
Proof.
  intros Hc. unfold fetchLobbyData. rewrite (nonempty_code _ Hc).
  destruct r as [|c|data]; cbn [fst].
  - right. right. split; [reflexivity|discriminate].
  - destruct (c =? 404) eqn:Hc4; cbn [fst error].
    + right. left. apply Z.eqb_eq in Hc4. subst c. split; reflexivity.
    + right. right. split; [reflexivity|discriminate].
  - left. split; [reflexivity|]. exists data. reflexivity.
Qed.

Lemma polls_cons (lobbyCode : string) (r : FetchResult) (rs : list FetchResult)
      (st : PageState) (ls : Storage) :
  let o1 := fetchLobbyData lobbyCode r st ls in
  let o2 := polls lobbyCode rs o1.1.1 o1.1.2 in
  polls lobbyCode (r :: rs) st ls = (o2.1.1, o2.1.2, o1.2 ++ o2.2).
Proof.
  simpl. destruct (fetchLobbyData lobbyCode r st ls) as [[st1 ls1] ts1]. simpl.
  destruct (polls lobbyCode rs st1 ls1) as [[st2 ls2] ts2]. reflexivity.
Qed.

Lemma groupLockedCount_app (a b : list Toast) :
  groupLockedCount (a ++ b) = (groupLockedCount a + groupLockedCount b)%nat.
Proof. unfold groupLockedCount. rewrite List.filter_app, List.length_app. reflexivity. Qed.

(** The "group locked" notifications of one successful response. *)
Lemma reconcile_locked (st : PageState) (data : LobbyData) :
  groupLockedCount (reconcile st data) =
  if bool_decide (prevStatusRef st = "OPEN" /\ status data = "LOCKED") then 1%nat else 0%nat.
Proof.
  unfold reconcile. rewrite groupLockedCount_app.
  assert (H1 : groupLockedCount
                 (if (prevMemberCountRef st >? 0) && (member_count data >? prevMemberCountRef st)
                  then [memberJoinedToast data] else []) = 0%nat).
  { destruct (_ && _); reflexivity. }
  rewrite H1. simpl.
  destruct (JS.str_eq (prevStatusRef st) "OPEN") eqn:Ha;
    destruct (JS.str_eq (status data) "LOCKED") eqn:Hb; simpl;
    case_bool_decide as Hd; try reflexivity.
  - exfalso. apply Hd. split; apply str_eq_true; assumption.
  - destruct Hd as [_ Hd]. apply str_eq_false in Hb. contradiction.
  - destruct Hd as [Hd _]. apply str_eq_false in Ha. contradiction.
  - destruct Hd as [Hd _]. apply str_eq_false in Ha. contradiction.
Qed.

(** Over a whole sequence of fetch results the "group locked"
    notifications are the OPEN-to-LOCKED edges of the snapshots. *)
Lemma polls_locked (lobbyCode : string) (rs : list FetchResult) :
  lobbyCode <> "" ->
  forall (st : PageState) (ls : Storage),
    groupLockedCount (polls lobbyCode rs st ls).2 =
    lockEdges (prevStatusRef st) (map status (snapshots rs)).
Proof.
  intros Hc. induction rs as [|r rs IH]; intros st ls; [reflexivity|].
  rewrite polls_cons. cbv zeta. cbn [snd]. rewrite groupLockedCount_app, IH.
  destruct r as [|c|data].
  - destruct (fetch_failed lobbyCode Rejected st ls) as (_ & -> & _ & ->); [discriminate|].
    reflexivity.
  - destruct (fetch_failed lobbyCode (NotOk c) st ls) as (_ & -> & _ & ->); [discriminate|].
    reflexivity.
  - rewrite (fetch_ok _ _ _ _ Hc). cbn [fst snd prevStatusRef snapshots map lockEdges].
    rewrite reconcile_locked. reflexivity.
Qed.

(** The held member count is never negative along a well-formed
    history. *)
Lemma polls_prev_nonneg (lobbyCode : string) (rs : list FetchResult) :
  history_wf rs ->
  forall (st : PageState) (ls : Storage),
    0 <= prevMemberCountRef st ->
    0 <= prevMemberCountRef (polls lobbyCode rs st ls).1.1.
Proof.
  unfold history_wf. induction rs as [|r rs IH]; intros Hwf st ls Hst; [exact Hst|].
  rewrite polls_cons. cbv zeta. cbn [fst].
  destruct r as [|c|data].
  - apply IH; [exact Hwf|].
    destruct (fetch_failed lobbyCode Rejected st ls) as (-> & _); [discriminate|exact Hst].
  - apply IH; [exact Hwf|].
    destruct (fetch_failed lobbyCode (NotOk c) st ls) as (-> & _); [discriminate|exact Hst].
  - simpl in Hwf. apply Forall_cons in Hwf. destruct Hwf as [Hd Hwf].
    apply IH; [exact Hwf|].
    unfold fetchLobbyData. destruct (JS.str_eq lobbyCode ""); [exact Hst|].
    cbn [fst prevMemberCountRef]. rewrite Hd. lia.
Qed.

(** Before the first successful response the held member count is the
    initial 0. *)
Lemma polls_no_snapshot (lobbyCode : string) (rs : list FetchResult) :
  snapshots rs = [] ->
  forall (st : PageState) (ls : Storage),
    prevMemberCountRef (polls lobbyCode rs st ls).1.1 = prevMemberCountRef st.
Proof.
  induction rs as [|r rs IH]; intros Hs st ls; [reflexivity|].
  rewrite polls_cons. cbv zeta. cbn [fst].
  destruct r as [|c|data]; [| |discriminate].
  - rewrite IH; [|exact Hs].
    destruct (fetch_failed lobbyCode Rejected st ls) as (-> & _); [discriminate|reflexivity].
  - rewrite IH; [|exact Hs].
    destruct (fetch_failed lobbyCode (NotOk c) st ls) as (-> & _); [discriminate|reflexivity].
Qed.

(** The discount of the notification is the tier engine's: on the page's
    table the floor tier carries the default 0. *)
Lemma memberJoinedToast_discount (data : LobbyData) :
  exists t,
    TierEngine.currentTier (member_count data) = Some t /\
    memberJoinedToast data =
    ToastMemberJoined (user_name <$> last (members data)) (dt_discount t).
Proof.
  unfold memberJoinedToast, TierEngine.currentTier, TierEngine.currentTierOf, JS.or_else.
  destruct (JS.pop (TierEngine.unlocked DISCOUNT_TIERS (member_count data))) as [t|] eqn:Hp.
  - exists t. split; reflexivity.
  - exists (mkTier 2 0 "Standard"). split; reflexivity.
Qed.

(** Where the notification is built the popped tier is never missing:
    the guard of the branch puts the new count at 2 or more, the size of
    the lowest tier, so the expression without the [|| DISCOUNT_TIERS[0]]
    floor agrees with the one that has it. *)
Lemma notification_tier_present (st : PageState) (data : LobbyData) :
  (prevMemberCountRef st >? 0) && (member_count data >? prevMemberCountRef st) = true ->
  is_Some (JS.pop (TierEngine.unlocked DISCOUNT_TIERS (member_count data))) /\
  JS.pop (TierEngine.unlocked DISCOUNT_TIERS (member_count data)) =
  TierEngine.currentTier (member_count data).
Proof.
  intros Hg. apply andb_true_iff in Hg. destruct Hg as [Hp Hm].
  apply Z.gtb_lt in Hp. apply Z.gtb_lt in Hm.
  unfold TierEngine.currentTier, TierEngine.currentTierOf, JS.or_else.
  destruct (JS.pop (TierEngine.unlocked DISCOUNT_TIERS (member_count data))) as [t|] eqn:Hpop.
  - split; [eexists; reflexivity|reflexivity].
  - exfalso. unfold JS.pop, TierEngine.unlocked, JS.filter in Hpop.
    apply last_filter_none in Hpop.
    apply Forall_inv in Hpop. cbn [dt_size] in Hpop.
    rewrite Z.geb_leb in Hpop. apply Z.leb_gt in Hpop. lia.
Qed.

Lemma memberJoined_reconcile (st : PageState) (data : LobbyData) :
  memberJoined (reconcile st data) =
  if (prevMemberCountRef st >? 0) && (member_count data >? prevMemberCountRef st)
  then [memberJoinedToast data] else [].
Proof.
  unfold reconcile, memberJoined. rewrite List.filter_app.
  destruct (_ && _); destruct (_ && _); reflexivity.
Qed.

End FetchFacts.

(** C3. After any well-formed history of fetches, a successful fetch whose
    snapshot has a member count strictly greater than the held count, the
    held count being nonzero, emits exactly one "member joined"
    notification; it carries the user name of the last entry of [members]
    and the discount of the tier engine's current tier for the new count.
    When the held count is zero no such notification is emitted, and the
    held count is zero on the first successful fetch of a session. *)
Theorem C3_member_joined_notification
        (lobbyCode : string) (history : list FetchResult)
        (data : LobbyData) (ls : Storage) :
  lobbyCode <> "" ->
  Reconcile.history_wf history ->
  snapshot_wf data ->
  let held := Fetch.polls lobbyCode history initialPage ls in
  let st := held.1.1 in
  let ts := (Fetch.fetchLobbyData lobbyCode (Ok data) st held.1.2).2 in
  (prevMemberCountRef st <> 0 ->
   prevMemberCountRef st < member_count data ->
   exists m t,
     last (members data) = Some m /\
     TierEngine.currentTier (member_count data) = Some t /\
     Reconcile.memberJoined ts = [ToastMemberJoined (Some (user_name m)) (dt_discount t)]) /\
  (prevMemberCountRef st = 0 -> Reconcile.memberJoined ts = []) /\
  (Reconcile.snapshots history = [] ->
   prevMemberCountRef st = 0 /\ Reconcile.memberJoined ts = []).
Proof.
  intros Hc Hwf Hd held st ts.
  assert (Hts : Reconcile.memberJoined ts =
                if (prevMemberCountRef st >? 0) && (member_count data >? prevMemberCountRef st)
                then [Fetch.memberJoinedToast data] else []).
  { unfold ts. rewrite (fetch_ok _ _ _ _ Hc). cbn [snd]. apply memberJoined_reconcile. }
  assert (Hzero : prevMemberCountRef st = 0 -> Reconcile.memberJoined ts = []).
  { intros H0. rewrite Hts, H0. reflexivity. }
  split; [|split].
  - intros Hnz Hgt.
    assert (Hnn : 0 <= prevMemberCountRef st).
    { unfold st, held. apply polls_prev_nonneg; [exact Hwf|simpl; lia]. }
    destruct (memberJoinedToast_discount data) as (t & Ht & Htoast).
    destruct (last (members data)) as [m|] eqn:Hl.
    + exists m, t. repeat split; auto.
      rewrite Hts, Htoast.
      replace (prevMemberCountRef st >? 0) with true by (symmetry; apply Z.gtb_lt; lia).
      replace (member_count data >? prevMemberCountRef st) with true
        by (symmetry; apply Z.gtb_lt; lia).
      reflexivity.
    + apply last_None in Hl. unfold snapshot_wf in Hd. rewrite Hl in Hd. simpl in Hd. lia.
  - exact Hzero.
  - intros Hs.
    assert (H0 : prevMemberCountRef st = 0).
    { unfold st, held. rewrite polls_no_snapshot; [reflexivity|exact Hs]. }
    split; [exact H0|exact (Hzero H0)].
Qed.

(** C4. Over every sequence of fetch results processed from any page
    state, the number of "group locked" notifications equals the number of
    places where the held status was OPEN and the next snapshot's status is
    LOCKED; one successful fetch fires it once on such an edge and not at
    all otherwise, in particular never when the held status is not OPEN. *)
Theorem C4_group_locked_once_per_edge
        (lobbyCode : string) (rs : list FetchResult)
        (st : PageState) (ls : Storage) :
  lobbyCode <> "" ->
  Reconcile.groupLockedCount (Fetch.polls lobbyCode rs st ls).2 =
    Reconcile.lockEdges (prevStatusRef st) (map status (Reconcile.snapshots rs)) /\
  (forall data,
      Reconcile.groupLockedCount (Fetch.fetchLobbyData lobbyCode (Ok data) st ls).2 =
      if bool_decide (prevStatusRef st = "OPEN" /\ status data = "LOCKED")
      then 1%nat else 0%nat) /\
  (forall data,
      prevStatusRef st <> "OPEN" ->
      Reconcile.groupLockedCount (Fetch.fetchLobbyData lobbyCode (Ok data) st ls).2 = 0%nat).
Proof.
  intros Hc.
  assert (Hone : forall data,
             Reconcile.groupLockedCount (Fetch.fetchLobbyData lobbyCode (Ok data) st ls).2 =
             if bool_decide (prevStatusRef st = "OPEN" /\ status data = "LOCKED")
             then 1%nat else 0%nat).
  { intros data. rewrite (fetch_ok _ _ _ _ Hc). cbn [snd]. apply reconcile_locked. }
  split; [apply polls_locked; exact Hc|]. split; [exact Hone|].
  intros data Hprev. rewrite Hone.
  case_bool_decide as Hd; [destruct Hd as [Hd _]; contradiction|reflexivity].
Qed.

(** ** Facts about the view-state gate and the pointer *)

Section ViewFacts.
Import View.

(** [members.some(m => m.user_name === name)] decides an exact name
    match. *)
Lemma some_name_match (name : string) (ms : list MemberInfo) :
  JS.some (fun m => JS.str_eq (user_name m) name) ms =
  bool_decide (Exists (fun m => user_name m = name) ms).
Proof.
  unfold JS.some. induction ms as [|m ms IH]; cbn [existsb].
  - symmetry. apply bool_decide_eq_false_2. intros H. inversion H.
  - destruct (JS.str_eq (user_name m) name) eqn:Hm; cbn [orb].
    + symmetry. apply bool_decide_eq_true_2. left. apply str_eq_true. exact Hm.
    + rewrite IH. apply str_eq_false in Hm.
      apply bool_decide_ext. rewrite Exists_cons. tauto.
Qed.

Lemma keys_distinct : ACTIVE_BUSINESS_KEY <> ACTIVE_LOBBY_KEY.
Proof. discriminate. Qed.

Lemma clearActiveLobby_lobby (ls : Storage) :
  clearActiveLobby ls !! ACTIVE_LOBBY_KEY = None.
Proof.
  unfold clearActiveLobby.
  rewrite lookup_delete_ne by exact keys_distinct.
  apply lookup_delete_eq.
Qed.

Lemma clearActiveLobby_business (ls : Storage) :
  clearActiveLobby ls !! ACTIVE_BUSINESS_KEY = None.
Proof. unfold clearActiveLobby. apply lookup_delete_eq. Qed.

Lemma clearActiveLobby_other (ls : Storage) (k : string) :
  k <> ACTIVE_LOBBY_KEY -> k <> ACTIVE_BUSINESS_KEY ->
  clearActiveLobby ls !! k = ls !! k.
Proof.
  intros H1 H2. unfold clearActiveLobby.
  rewrite lookup_delete_ne by auto. rewrite lookup_delete_ne by auto. reflexivity.
Qed.

(** A render that is past the loading and error checks leaves the storage
    alone. *)
Lemma render_loaded_storage (lobbyCode : string) (user : option User)
      (data : LobbyData) (joined : bool) (n : Z) (s : string) (ls : Storage) :
  (render lobbyCode user (mkPage (Some data) false None joined n s) ls).2 = ls.
Proof.
  unfold render. cbn [isLoading error lobby JS.truthy_str hasJoined].
  destruct (negb (isUserInLobby user data) && negb joined); [reflexivity|].
  destruct (JS.str_eq (status data) "CONFIRMED"); reflexivity.
Qed.

(** The render after a failed fetch: the not-found screen, whatever the
    failure was, and the saved pointer cleared when it names this
    lobby. *)
Lemma render_failed (lobbyCode : string) (user : option User)
      (l : option LobbyData) (msg : string) (joined : bool) (n : Z) (s : string)
      (ls : Storage) :
  msg <> "" ->
  render lobbyCode user (mkPage l false (Some msg) joined n s) ls =
  (NotFoundScreen, clearIfSaved lobbyCode ls).
Proof.
  intros Hm. unfold render. cbn [isLoading error lobby JS.truthy_str].
  destruct msg; [congruence|]. destruct l; reflexivity.
Qed.

Lemma fetchAndRender_ok_storage (lobbyCode : string) (user : option User)
      (data : LobbyData) (st : PageState) (ls : Storage) :
  lobbyCode <> "" ->
  tk_storage (fetchAndRender lobbyCode user (Ok data) st ls) =
  Fetch.updatePointer data ls.
Proof.
  intros Hc. unfold fetchAndRender. rewrite (fetch_ok _ _ _ _ Hc).
  pose proof (render_loaded_storage lobbyCode user data (hasJoined st)
                (member_count data) (status data) (Fetch.updatePointer data ls)) as Hr.
  destruct (render _ _ _ _) as [scr ls2]. simpl in *. exact Hr.
Qed.

Lemma fetchAndRender_failed (lobbyCode : string) (user : option User)
      (r : FetchResult) (st : PageState) (ls : Storage) :
  lobbyCode <> "" ->
  (forall data, r <> Ok data) ->
  tk_screen (fetchAndRender lobbyCode user r st ls) = NotFoundScreen /\
  tk_storage (fetchAndRender lobbyCode user r st ls) = clearIfSaved lobbyCode ls.
Proof.
  intros Hc Hr. unfold fetchAndRender, Fetch.fetchLobbyData.
  rewrite (nonempty_code _ Hc).
  destruct r as [|c|data]; [| |exfalso; eapply Hr; reflexivity].
  - rewrite render_failed by discriminate. split; reflexivity.
  - destruct (c =? 404); rewrite render_failed by discriminate; split; reflexivity.
Qed.

End ViewFacts.

(** C2. On every render the screen is selected by the first match of:
    loading while the first fetch is in flight; not-found when the fetch
    failed or no lobby is held; the join gate when the identity is absent or
    its name is not among the members by exact match, and no join was
    completed this session; the confirmed screen when the status is
    CONFIRMED; otherwise the normal screen, with the empty-lobby call to
    action when [business_id] resolves to no business. *)
Theorem C2_view_gate_first_match
        (lobbyCode : string) (user : option User) (st : PageState) (ls : Storage) :
  GateSpec.kindOf (View.render lobbyCode user st ls).1 =
  GateSpec.selectScreen
    (isLoading st)
    (JS.truthy_str (error st) || GateSpec.lobbyAbsent st)
    (GateSpec.identityAbsent user)
    (GateSpec.onLobby (GateSpec.nameAmongMembers user) st)
    (hasJoined st)
    (GateSpec.onLobby (fun l => bool_decide (status l = "CONFIRMED")) st)
    (GateSpec.onLobby (fun l => bool_decide (is_Some (getBusinessById (business_id l)))) st).
Proof.
  unfold View.render, GateSpec.selectScreen, GateSpec.lobbyAbsent, GateSpec.onLobby.
  destruct (isLoading st); [reflexivity|].
  destruct (JS.truthy_str (error st)); [destruct (lobby st); reflexivity|].
  destruct (lobby st) as [l|]; [|reflexivity].
  cbn [orb].
  assert (Hin : View.isUserInLobby user l =
                negb (GateSpec.identityAbsent user || negb (GateSpec.nameAmongMembers user l))).
  { unfold View.isUserInLobby, GateSpec.identityAbsent, GateSpec.nameAmongMembers.
    destruct user as [u|]; [|reflexivity].
    rewrite some_name_match. cbn [orb]. rewrite negb_involutive. reflexivity. }
  rewrite Hin, negb_involutive.
  destruct ((GateSpec.identityAbsent user || negb (GateSpec.nameAmongMembers user l))
            && negb (hasJoined st)); [reflexivity|].
  assert (Hconf : JS.str_eq (status l) "CONFIRMED" = bool_decide (status l = "CONFIRMED")).
  { destruct (JS.str_eq (status l) "CONFIRMED") eqn:Hs; symmetry.
    - apply bool_decide_eq_true_2, str_eq_true, Hs.
    - apply bool_decide_eq_false_2, str_eq_false, Hs. }
  rewrite Hconf. destruct (bool_decide (status l = "CONFIRMED")); [reflexivity|].
  cbn [fst]. unfold View.offerCard.
  destruct (getBusinessById (business_id l)) as [b|]; reflexivity.
Qed.

(** C5. After a fetch for lobby code [lobbyCode] and the render that
    follows it: a snapshot with status OPEN leaves the pointer set to the
    snapshot's [(lobby_code, business_id)]; a snapshot with status EXPIRED
    or CONFIRMED leaves both pointer keys absent; a not-found result removes
    both keys when the saved lobby code equals [lobbyCode] and leaves the
    storage as it was when it does not. *)
Theorem C5_active_lobby_pointer_after_fetch
        (lobbyCode : string) (user : option User) (st : PageState) (ls : Storage) :
  lobbyCode <> "" ->
  (forall data,
      status data = "OPEN" ->
      let ls' := View.tk_storage (View.fetchAndRender lobbyCode user (Ok data) st ls) in
      ls' !! ACTIVE_LOBBY_KEY = Some (lobby_code data) /\
      ls' !! ACTIVE_BUSINESS_KEY = Some (business_id data)) /\
  (forall data,
      status data = "EXPIRED" \/ status data = "CONFIRMED" ->
      let ls' := View.tk_storage (View.fetchAndRender lobbyCode user (Ok data) st ls) in
      ls' !! ACTIVE_LOBBY_KEY = None /\ ls' !! ACTIVE_BUSINESS_KEY = None) /\
  (let ls' := View.tk_storage (View.fetchAndRender lobbyCode user (NotOk 404) st ls) in
   (ls !! ACTIVE_LOBBY_KEY = Some lobbyCode -> ls' = clearActiveLobby ls) /\
   (ls !! ACTIVE_LOBBY_KEY <> Some lobbyCode -> ls' = ls)).
Proof.
  intros Hc. split; [|split].
  - intros data Hs ls'. unfold ls'. rewrite fetchAndRender_ok_storage by exact Hc.
    unfold Fetch.updatePointer. rewrite Hs. cbn [JS.str_eq String.eqb Ascii.eqb Bool.eqb orb].
    split.
    + rewrite lookup_insert_ne by exact keys_distinct. apply lookup_insert_eq.
    + apply lookup_insert_eq.
  - intros data Hs ls'. unfold ls'. rewrite fetchAndRender_ok_storage by exact Hc.
    unfold Fetch.updatePointer.
    destruct Hs as [Hs|Hs]; rewrite Hs; cbn [JS.str_eq String.eqb Ascii.eqb Bool.eqb orb];
      split; [apply clearActiveLobby_lobby|apply clearActiveLobby_business
             |apply clearActiveLobby_lobby|apply clearActiveLobby_business].
  - intros ls'. unfold ls'.
    destruct (fetchAndRender_failed lobbyCode user (NotOk 404) st ls Hc) as [_ ->];
      [discriminate|].
    unfold View.clearIfSaved. split.
    + intros ->. rewrite str_eq_refl. reflexivity.
    + intros Hne. destruct (ls !! ACTIVE_LOBBY_KEY) as [saved|]; [|reflexivity].
      destruct (JS.str_eq saved lobbyCode) eqn:He; [|reflexivity].
      apply str_eq_true in He. congruence.
Qed.

(** ** Facts about the offer card *)

Section OfferCardFacts.

(** On an ascending price list the first tier whose size does not exceed
    the count is the first tier of the list, so the offer card always
    selects the base tier. *)
Lemma currentPriceTier_always_base (business : BusinessListing)
      (tiers : list PricingTier) (n : Z) :
  b_pricingTiers business = Some tiers ->
  PricingSpec.ascending tiers ->
  OfferCard.currentPriceTier business n = OfferCard.baseTier business.
Proof.
  intros Ht Hasc. unfold OfferCard.currentPriceTier, OfferCard.baseTier.
  rewrite Ht. destruct tiers as [|a tl]; [reflexivity|].
  unfold JS.find, JS.first, JS.or_else. cbn [List.find head].
  destruct (pt_size a <=? n) eqn:Ha; [reflexivity|].
  destruct (List.find _ tl) as [x|] eqn:Hf; [|reflexivity].
  exfalso. apply find_some in Hf. destruct Hf as [Hin Hx].
  apply StronglySorted_inv in Hasc. destruct Hasc as [_ Hall].
  rewrite Forall_forall in Hall.
  apply list_elem_of_In in Hin. specialize (Hall x Hin). simpl in Hall.
  apply Z.leb_le in Hx. apply Z.leb_gt in Ha. lia.
Qed.

End OfferCardFacts.

(** C1 (the code at the failing input). Strike Zone Bowling has price
    tiers of sizes 2, 4, 6, 8, strictly ascending. For a lobby of five the
    tier of greatest size not exceeding 5 is the size-4 tier at 200 kr, but
    the offer card of the lobby screen selects the size-2 tier and shows
    250 kr, with no struck-through base price. *)
Theorem C1_offer_card_selects_first_tier :
  exists business tiers,
    getBusinessById "1" = Some business /\
    b_pricingTiers business = Some tiers /\
    map pt_size tiers = [2; 4; 6; 8] /\
    PricingSpec.ascending tiers /\
    PricingSpec.applicablePriceTier tiers 5 = Some (mkPrice 4 200 "20% rabatt") /\
    OfferCard.currentPriceTier business 5 = Some (mkPrice 2 250 "Standard") /\
    (View.render "ABC123" (Some Examples.kari)
                 (Examples.pageShowing Examples.bowlingLobby) ∅).1 =
    NormalScreen Examples.bowlingLobby
                 (BusinessOffer business
                                (Some (mkTier 4 20 "20% rabatt"))
                                (Some (mkPrice 2 250 "Standard"))
                                (Some 250) false).
Proof.
  eexists. eexists.
  split; [reflexivity|]. split; [reflexivity|]. split; [reflexivity|].
  split.
  { unfold PricingSpec.ascending.
    repeat (apply SSorted_cons; [|repeat constructor; simpl; lia]).
    apply SSorted_nil. }
  split; [reflexivity|]. split; reflexivity.
Qed.

(** C8 (the code at the failing input). With a lobby on screen and the
    pointer saved, a poll that fails for lack of connectivity and a poll
    answered 404 store different messages in [error], yet both render the
    same not-found screen, and both clear the saved pointer. *)
Theorem C8_network_failure_renders_not_found :
  let st := Examples.pageShowing Examples.bowlingLobby in
  let offline :=
    View.fetchAndRender "ABC123" (Some Examples.kari) Rejected st Examples.savedPointer in
  let missing :=
    View.fetchAndRender "ABC123" (Some Examples.kari) (NotOk 404) st Examples.savedPointer in
  error (View.tk_state offline) = Some MSG_NO_SERVER /\
  error (View.tk_state missing) = Some MSG_NOT_FOUND /\
  View.tk_screen offline = NotFoundScreen /\
  View.tk_screen missing = NotFoundScreen /\
  View.tk_storage offline !! ACTIVE_LOBBY_KEY = None /\
  View.tk_storage missing !! ACTIVE_LOBBY_KEY = None.
Proof.
  cbv zeta.
  destruct (fetchAndRender_failed "ABC123" (Some Examples.kari) Rejected
              (Examples.pageShowing Examples.bowlingLobby) Examples.savedPointer)
    as [Hs1 Hl1]; [discriminate|discriminate|].
  destruct (fetchAndRender_failed "ABC123" (Some Examples.kari) (NotOk 404)
              (Examples.pageShowing Examples.bowlingLobby) Examples.savedPointer)
    as [Hs2 Hl2]; [discriminate|discriminate|].
  rewrite Hs1, Hs2, Hl1, Hl2.
  assert (Hsaved : View.clearIfSaved "ABC123" Examples.savedPointer =
                   clearActiveLobby Examples.savedPointer).
  { unfold View.clearIfSaved, Examples.savedPointer.
    rewrite lookup_insert_eq. reflexivity. }
  rewrite Hsaved.
  repeat split; try reflexivity; apply clearActiveLobby_lobby.
Qed.

(** ** Facts about the join gate *)

Section JoinFacts.
Import Join.





End JoinFacts.



(** ** Facts about leaving *)

(** C10. Leaving the group, once confirmed, removes the two active-lobby
    keys and nothing else from the storage (the guest identity under
    [groupie_user] in particular is as it was), navigates to the home page,
    and sends no HTTP request, so a backend that changes only by serving
    requests is in the state it was in. *)
Theorem C10_leave_group_is_local
        (ServerState : Type) (serve : ServerState -> HttpRequest -> ServerState)
        (server : ServerState) (ls : Storage) :
  let o := Leave.leaveGroup true ls in
  Leave.lv_requests o = [] /\
  Server.afterRequests serve server (Leave.lv_requests o) = server /\
  Leave.lv_navigate o = Some "/" /\
  Leave.lv_storage o !! ACTIVE_LOBBY_KEY = None /\
  Leave.lv_storage o !! ACTIVE_BUSINESS_KEY = None /\
  Leave.lv_storage o !! STORAGE_KEY = ls !! STORAGE_KEY /\
  (forall k : string,
      k <> ACTIVE_LOBBY_KEY -> k <> ACTIVE_BUSINESS_KEY ->
      Leave.lv_storage o !! k = ls !! k).
Proof.
  cbv zeta. unfold Leave.leaveGroup. cbn [Leave.lv_requests Leave.lv_navigate Leave.lv_storage].
  repeat split.
  - apply clearActiveLobby_lobby.
  - apply clearActiveLobby_business.
  - apply clearActiveLobby_other; discriminate.
  - intros k H1 H2. apply clearActiveLobby_other; assumption.
Qed.

(** ** Facts about the countdown *)

Section CountdownFacts.
Import Countdown.

Variable expires : Z.

Lemma remainingAt_nonneg (now : Z) : 0 <= remainingAt expires now.
Proof. unfold remainingAt. lia. Qed.

Lemma remainingAt_past (now : Z) : expires <= now -> remainingAt expires now = 0.
Proof.
  intros H. unfold remainingAt.
  assert ((expires - now) / 1000 <= 0) by (apply Z.div_le_upper_bound; lia).
  lia.
Qed.

(** What one invocation of the effect or of the interval does to a
    settled timer. *)
Lemma invoke_settled (now commitNow : Z) (st : TimerState) (viaEffect : bool) :
  settled st ->
  let r := commit expires commitNow
             (if viaEffect then runEffect expires now st
              else calculateRemaining expires now st) in
  settled r.1 /\
  isExpired r.1 = isExpired st || (remainingAt expires now =? 0) /\
  r.2 = (if negb (isExpired st) && (remainingAt expires now =? 0)
         then 1%nat else 0%nat) /\
  0 <= timeRemaining r.1 /\
  (isExpired r.1 = false -> timeRemaining r.1 = remainingAt expires now).
Proof.
  unfold settled. destruct st as [tr ex cap]. cbn [capturedIsExpired isExpired].
  intros ->. cbv zeta.
  unfold runEffect, calculateRemaining, commit.
  cbn [capturedIsExpired isExpired timeRemaining].
  pose proof (remainingAt_nonneg now) as Hn.
  pose proof (remainingAt_nonneg commitNow) as Hc.
  destruct viaEffect, ex, (remainingAt expires now =? 0) eqn:Hz;
    cbn [negb andb orb eqb fst snd capturedIsExpired isExpired timeRemaining runEffect
         calculateRemaining];
    unfold runEffect, calculateRemaining;
    cbn [negb andb orb eqb fst snd capturedIsExpired isExpired timeRemaining];
    rewrite ?andb_false_r;
    cbn [negb andb orb eqb fst snd capturedIsExpired isExpired timeRemaining];
    repeat split; auto; try discriminate.
Qed.

Lemma step_settled (e : TimerEvent) (st : TimerState) :
  settled st ->
  let r := step expires e st in
  settled r.1 /\
  isExpired r.1 = isExpired st || (remainingAt expires (reading e) =? 0) /\
  r.2 = (if negb (isExpired st) && (remainingAt expires (reading e) =? 0)
         then 1%nat else 0%nat) /\
  0 <= timeRemaining r.1 /\
  (isExpired r.1 = false -> timeRemaining r.1 = remainingAt expires (reading e)).
Proof.
  intros Hs. destruct e as [now c|now c]; cbn [step reading].
  - exact (invoke_settled now c st false Hs).
  - exact (invoke_settled now c st true Hs).
Qed.

Lemma mount_settled (now commitNow : Z) :
  let r := mount expires now commitNow in
  settled r.1 /\
  isExpired r.1 = (remainingAt expires now =? 0) /\
  r.2 = (if remainingAt expires now =? 0 then 1%nat else 0%nat) /\
  0 <= timeRemaining r.1 /\
  (isExpired r.1 = false -> timeRemaining r.1 = remainingAt expires now).
Proof.
  assert (Hs : settled initialTimer) by reflexivity.
  exact (invoke_settled now commitNow initialTimer true Hs).
Qed.

(** The callback calls of a run: the first zero reading not yet seen. *)
Lemma run_calls (es : list TimerEvent) :
  forall st, settled st ->
    map snd (run expires es st) = firstZero expires (isExpired st) (map reading es).
Proof.
  induction es as [|e es IH]; intros st Hs; [reflexivity|].
  cbn [run map firstZero].
  destruct (step_settled e st Hs) as (Hs' & Hex & Hf & _).
  rewrite IH by exact Hs'. rewrite Hf, Hex.
  destruct (isExpired st); cbn [negb andb orb]; [reflexivity|].
  destruct (remainingAt expires (reading e) =? 0); reflexivity.
Qed.

(** Once expired, a timer stays expired and never calls back. *)
Lemma run_expired (es : list TimerEvent) :
  forall st, settled st -> isExpired st = true ->
    Forall (fun r : TimerState * nat => view r.1 = ShowsExpired /\ r.2 = 0%nat)
           (run expires es st).
Proof.
  induction es as [|e es IH]; intros st Hs Hex; [constructor|].
  cbn [run].
  destruct (step_settled e st Hs) as (Hs' & Hex' & Hf & _).
  rewrite Hex in Hex', Hf. cbn [negb andb orb] in Hex', Hf.
  constructor.
  - unfold view. rewrite Hex'. split; [reflexivity|exact Hf].
  - apply IH; assumption.
Qed.

(** The time on display is never negative. *)
Lemma run_nonneg (es : list TimerEvent) :
  forall st, settled st ->
    Forall (fun r : TimerState * nat => 0 <= timeRemaining r.1) (run expires es st).
Proof.
  induction es as [|e es IH]; intros st Hs; [constructor|].
  cbn [run].
  destruct (step_settled e st Hs) as (Hs' & _ & _ & Hnn & _).
  constructor; [exact Hnn|apply IH; exact Hs'].
Qed.

(** At most one reading is marked, and one is when some reading is
    zero. *)
Lemma firstZero_total (readings : list Z) :
  forall seen,
    list_sum (firstZero expires seen readings) =
    if negb seen && existsb (fun t => remainingAt expires t =? 0) readings
    then 1%nat else 0%nat.
Proof.
  assert (Hcons : forall a l, list_sum (a :: l) = (a + list_sum l)%nat) by reflexivity.
  induction readings as [|t rest IH]; intros seen; cbn [firstZero existsb].
  - destruct seen; reflexivity.
  - destruct seen.
    + rewrite Hcons, IH. reflexivity.
    + destruct (remainingAt expires t =? 0); rewrite Hcons, IH; reflexivity.
Qed.

Lemma firstZero_seen (readings : list Z) :
  firstZero expires true readings = map (fun _ => 0%nat) readings.
Proof. induction readings as [|t rest IH]; [reflexivity|]. simpl. rewrite IH. reflexivity. Qed.

Lemma showsAt_of_step (t : Z) (st' : TimerState) (ex : bool) :
  isExpired st' = ex || (remainingAt expires t =? 0) ->
  0 <= timeRemaining st' ->
  (isExpired st' = false -> timeRemaining st' = remainingAt expires t) ->
  showsAt expires t st'.
Proof.
  intros Hex Hnn Htr. split; [exact Hnn|]. unfold view.
  destruct (isExpired st') eqn:He; [left; reflexivity|right].
  rewrite (Htr eq_refl). split; [|reflexivity].
  symmetry in Hex. apply orb_false_elim in Hex. destruct Hex as [_ Hz].
  apply Z.eqb_neq in Hz. pose proof (remainingAt_nonneg t). lia.
Qed.

(** After every event the display is the expired state or the remaining
    seconds recomputed at that event's clock reading. *)
Lemma run_shows (es : list TimerEvent) :
  forall st, settled st ->
    Forall2 (fun t (r : TimerState * nat) => showsAt expires t r.1)
            (map reading es) (run expires es st).
Proof.
  induction es as [|e es IH]; intros st Hs; [constructor|].
  cbn [run map].
  destruct (step_settled e st Hs) as (Hs' & Hex & _ & Hnn & Htr).
  constructor; [|apply IH; exact Hs'].
  eapply showsAt_of_step; eauto.
Qed.

(** The remaining time is the number of whole seconds left: zero when
    less than a second is left or the expiry is past, and otherwise the one
    number of seconds that fits into the milliseconds left. *)
Lemma remainingAt_whole_seconds (t r : Z) :
  remainingAt expires t = r <->
  (expires - t < 1000 /\ r = 0) \/
  (0 < r /\ 1000 * r <= expires - t < 1000 * r + 1000).
Proof.
  unfold remainingAt.
  pose proof (Z.div_mod (expires - t) 1000 ltac:(lia)) as Hdm.
  pose proof (Z.mod_pos_bound (expires - t) 1000 ltac:(lia)) as Hb.
  split.
  - intros <-. destruct (Z_lt_ge_dec (expires - t) 1000) as [Hlt|Hge].
    + left. split; [exact Hlt|]. lia.
    + right. lia.
  - intros [[Hlt ->]|[Hpos Hr]]; lia.
Qed.

(** What is on display after every event of a run. *)
Lemma run_views (es : list TimerEvent) :
  forall st, settled st ->
    map (fun r : TimerState * nat => view r.1) (run expires es st) =
    shownAfter expires (isExpired st) (map reading es).
Proof.
  induction es as [|e es IH]; intros st Hs; [reflexivity|].
  cbn [run map shownAfter].
  destruct (step_settled e st Hs) as (Hs' & Hex & _ & _ & Htr).
  rewrite IH by exact Hs'. rewrite <- Hex. f_equal.
  unfold view. destruct (isExpired (step expires e st).1) eqn:He; [reflexivity|].
  rewrite (Htr eq_refl). reflexivity.
Qed.

End CountdownFacts.

(** C7. For an expiry timestamp [expires], a timer mounted at clock reading
    [now] and then driven by any sequence of interval ticks and re-runs of
    its effect:
    - computes remaining whole seconds clamped at zero, never negative and
      zero at every reading at or past the expiry: the value at a reading
      is 0 when less than 1000 ms are left, and otherwise the one positive
      number of seconds that fits into the milliseconds left;
    - shows after each event either the expired state or the positive
      remaining seconds recomputed at that event's reading: the expired
      state from the first event on whose reading gives zero, and before it
      the minutes and seconds of the value computed at the event's own
      reading;
    - calls [onExpired] at the first event whose reading gives zero
      remaining seconds and at no other event, hence once in all when some
      reading gives zero;
    - mounted at or past the expiry, is in the expired state from the mount
      on, has called the callback once at the mount and never calls it on
      a later event. *)
Theorem C7_countdown_clamped_fires_once
        (expires now commitNow : Z) (es : list Countdown.TimerEvent) :
  let readings := now :: map Countdown.reading es in
  let history := Countdown.life expires now commitNow es in
  (forall t, 0 <= Countdown.remainingAt expires t /\
             (expires <= t -> Countdown.remainingAt expires t = 0)) /\
  (forall t r,
      Countdown.remainingAt expires t = r <->
      (expires - t < 1000 /\ r = 0) \/
      (0 < r /\ 1000 * r <= expires - t < 1000 * r + 1000)) /\
  Forall2 (fun t (r : Countdown.TimerState * nat) => Countdown.showsAt expires t r.1)
          readings history /\
  map (fun r : Countdown.TimerState * nat => Countdown.view r.1) history =
    Countdown.shownAfter expires false readings /\
  map snd history = Countdown.firstZero expires false readings /\
  list_sum (map snd history) =
    (if existsb (fun t => Countdown.remainingAt expires t =? 0) readings
     then 1%nat else 0%nat) /\
  (expires <= now ->
   Forall (fun r : Countdown.TimerState * nat => Countdown.view r.1 = Countdown.ShowsExpired)
          history /\
   map snd history = 1%nat :: map (fun _ => 0%nat) es).
Proof.
  cbv zeta. unfold Countdown.life.
  destruct (mount_settled expires now commitNow) as (Hs & Hex & Hf & Hnn & Htr).
  assert (Hcalls : map snd (Countdown.mount expires now commitNow
                            :: Countdown.run expires es (Countdown.mount expires now commitNow).1) =
                   Countdown.firstZero expires false (now :: map Countdown.reading es)).
  { cbn [map Countdown.firstZero]. rewrite run_calls by exact Hs. rewrite Hf, Hex.
    destruct (Countdown.remainingAt expires now =? 0); reflexivity. }
  split; [|split; [|split; [|split; [|split; [|split]]]]].
  - intros t. split; [apply remainingAt_nonneg|apply remainingAt_past].
  - intros t r. apply remainingAt_whole_seconds.
  - constructor; [|apply run_shows; exact Hs].
    eapply showsAt_of_step with (ex := false); eauto.
  - cbn [map Countdown.shownAfter orb]. rewrite run_views by exact Hs.
    rewrite <- Hex. f_equal.
    unfold Countdown.view.
    destruct (Countdown.isExpired (Countdown.mount expires now commitNow).1) eqn:He;
      [reflexivity|].
    rewrite (Htr eq_refl). reflexivity.
  - exact Hcalls.
  - rewrite Hcalls. rewrite firstZero_total. reflexivity.
  - intros Hpast. pose proof (remainingAt_past expires now Hpast) as Hz.
    rewrite Hz in Hex, Hf. cbn [Z.eqb] in Hex, Hf.
    split.
    + constructor; [unfold Countdown.view; rewrite Hex; reflexivity|].
      eapply Forall_impl; [apply run_expired; assumption|].
      intros r [Hv _]. exact Hv.
    + cbn [map]. rewrite Hf. f_equal.
      rewrite run_calls by exact Hs. rewrite Hex, firstZero_seen, map_map. reflexivity.
Qed.

(** ** Worked instances *)

Example currentTier_below_floor :
  TierEngine.currentTier 1 = Some (mkTier 2 0 "Standard").
Proof. reflexivity. Qed.

Example currentTier_above_top :
  TierEngine.currentTier 11 = Some (mkTier 8 40 "Beste pris!").
Proof. reflexivity. Qed.

Example nextTier_of_five :
  TierEngine.nextTier 5 = Some (mkTier 6 30 "30% rabatt").
Proof. reflexivity. Qed.

Example nextTier_at_top : TierEngine.nextTier 8 = None.
Proof. reflexivity. Qed.

Example trim_both_ends : Join.trim "  Ola " = "Ola".
Proof. reflexivity. Qed.

Example trim_blank : Join.trim "   " = "".
Proof. reflexivity. Qed.

Example remaining_floor : Countdown.remainingAt 10000 1 = 9.
Proof. reflexivity. Qed.

Example remaining_last_second : Countdown.remainingAt 10000 9001 = 0.
Proof. reflexivity. Qed.

(** Ten seconds to go at the mount, then a tick every second, each read
    exactly on the second: the callback is called at the tenth tick and at no
    other event. *)
Example countdown_ten_seconds :
  map snd
      (Countdown.life 10000 0 0
         [ Countdown.Tick 1000 1000; Countdown.Tick 2000 2000; Countdown.Tick 3000 3000;
           Countdown.Tick 4000 4000; Countdown.Tick 5000 5000; Countdown.Tick 6000 6000;
           Countdown.Tick 7000 7000; Countdown.Tick 8000 8000; Countdown.Tick 9000 9000;
           Countdown.Tick 10000 10000; Countdown.Tick 11000 11000 ]) =
  [0; 0; 0; 0; 0; 0; 0; 0; 0; 0; 1; 0]%nat.
Proof. reflexivity. Qed.

(** Before its effect has run the component shows 00:00, not yet the
    expired state. *)
Example countdown_first_paint :
  Countdown.view Countdown.initialTimer = Countdown.ShowsTime 0 0 true.
Proof. reflexivity. Qed.

Example render_confirmed :
  (View.render "ABC123" (Some Examples.kari)
               (Examples.pageShowing Examples.confirmedLobby) ∅).1 =
  ConfirmedScreen 5 "ABC123" (Some (mkTier 4 20 "20% rabatt")).
Proof. reflexivity. Qed.

Example render_join_gate_for_stranger :
  GateSpec.kindOf
    (View.render "ABC123" None (Examples.pageShowing Examples.bowlingLobby) ∅).1 = KJoinGate.
Proof. reflexivity. Qed.

Example render_empty_lobby :
  (View.render "ABC123" (Some Examples.kari)
               (Examples.pageShowing
                  (mkLobby "lobby-2" "XYZ789" "" "Kari" "OPEN" 1 [mkMember "Kari" false]
                           "2025-01-01T12:00:00Z" "2025-01-01T12:30:00Z")) ∅).1 =
  NormalScreen (mkLobby "lobby-2" "XYZ789" "" "Kari" "OPEN" 1 [mkMember "Kari" false]
                        "2025-01-01T12:00:00Z" "2025-01-01T12:30:00Z")
               EmptyLobbyCTA.
Proof. reflexivity. Qed.

(** Instance of C6 at a count of five. *)
Lemma C6_current_tier_witness :
  exists t,
    TierEngine.currentTier 5 = Some t /\
    In t DISCOUNT_TIERS /\
    ((TierEngine.last_qualifying DISCOUNT_TIERS 5 t /\
      forall u, In u DISCOUNT_TIERS -> dt_size u <= 5 -> dt_size u <= dt_size t)
     \/ TierEngine.floor_tier DISCOUNT_TIERS 5 t).
Proof. exact (proj1 C6_current_tier_last_qualifying_or_floor 5). Defined.

(** Instance of C3: Kari alone, then Per joins. *)
Lemma C3_member_joined_witness :
  let held := Fetch.polls "ABC123" [Ok Examples.lobbyOfOne] initialPage ∅ in
  let ts := (Fetch.fetchLobbyData "ABC123" (Ok Examples.lobbyOfTwo) held.1.1 held.1.2).2 in
  exists m t,
    last (members Examples.lobbyOfTwo) = Some m /\
    TierEngine.currentTier (member_count Examples.lobbyOfTwo) = Some t /\
    Reconcile.memberJoined ts = [ToastMemberJoined (Some (user_name m)) (dt_discount t)].
Proof.
  destruct (C3_member_joined_notification
              "ABC123" [Ok Examples.lobbyOfOne] Examples.lobbyOfTwo ∅) as [H _].
  - discriminate.
  - unfold Reconcile.history_wf. simpl. repeat constructor.
  - reflexivity.
  - apply H.
    + vm_compute. discriminate.
    + vm_compute. reflexivity.
Defined.

(** Instance of C4: OPEN, then LOCKED seen on two consecutive polls. *)
Lemma C4_group_locked_witness :
  Reconcile.groupLockedCount
    (Fetch.polls "ABC123"
                 [Ok Examples.bowlingLobby; Ok Examples.lockedLobby; Ok Examples.lockedLobby]
                 initialPage ∅).2 = 1%nat.
Proof.
  destruct (C4_group_locked_once_per_edge
              "ABC123"
              [Ok Examples.bowlingLobby; Ok Examples.lockedLobby; Ok Examples.lockedLobby]
              initialPage ∅) as [H _].
  - discriminate.
  - exact (eq_trans H eq_refl).
Defined.

(** Instance of C5: an OPEN snapshot fetched into an empty storage. *)
Lemma C5_active_lobby_pointer_witness :
  let ls' := View.tk_storage
               (View.fetchAndRender "ABC123" (Some Examples.kari)
                                    (Ok Examples.bowlingLobby) initialPage ∅) in
  ls' !! ACTIVE_LOBBY_KEY = Some "ABC123" /\ ls' !! ACTIVE_BUSINESS_KEY = Some "1".
Proof.
  destruct (C5_active_lobby_pointer_after_fetch
              "ABC123" (Some Examples.kari) initialPage ∅) as [H _].
  - discriminate.
  - exact (H Examples.bowlingLobby eq_refl).
Defined.

(** Instances of C7. Ten seconds to go at the mount, then ticks read at
    1.0 s, 8.5 s, 9.2 s and 12 s: the display counts 10, 9, 1 and is expired
    from the tick at 9.2 s on, where the callback is called, once. And a
    timer mounted four seconds after the expiry, then two ticks. *)
Lemma C7_countdown_witness :
  (let history :=
     Countdown.life 10000 0 1
                    [Countdown.Tick 1000 1001; Countdown.Tick 8500 8501;
                     Countdown.Tick 9200 9201; Countdown.Tick 12000 12001] in
   map (fun r : Countdown.TimerState * nat => Countdown.view r.1) history =
     [Countdown.ShowsTime 0 10 true; Countdown.ShowsTime 0 9 true;
      Countdown.ShowsTime 0 1 true; Countdown.ShowsExpired; Countdown.ShowsExpired] /\
   map snd history = [0; 0; 0; 1; 0]%nat /\
   Countdown.remainingAt 10000 8500 = 1) /\
  (let history :=
     Countdown.life 1000 5000 5001
                    [Countdown.Tick 6000 6001; Countdown.Tick 7000 7001] in
   Forall (fun r : Countdown.TimerState * nat => Countdown.view r.1 = Countdown.ShowsExpired)
          history /\
   map snd history = [1%nat; 0%nat; 0%nat]).
Proof.
  split.
  - destruct (C7_countdown_clamped_fires_once
                10000 0 1
                [Countdown.Tick 1000 1001; Countdown.Tick 8500 8501;
                 Countdown.Tick 9200 9201; Countdown.Tick 12000 12001])
      as (_ & Hvalue & _ & Hviews & Hcalls & _).
    split; [exact (eq_trans Hviews eq_refl)|].
    split; [exact (eq_trans Hcalls eq_refl)|].
    apply Hvalue. right. lia.
  - destruct (C7_countdown_clamped_fires_once
                1000 5000 5001 [Countdown.Tick 6000 6001; Countdown.Tick 7000 7001])
      as (_ & _ & _ & _ & _ & _ & H).
    apply H. lia.
Defined.


(** Instance of C10: leaving with a saved pointer and a guest identity. *)
Lemma C10_leave_group_witness :
  Leave.lv_storage (Leave.leaveGroup true Examples.savedPointer) !! "groupie_theme" =
  Examples.savedPointer !! "groupie_theme".
Proof.
  destruct (C10_leave_group_is_local nat (fun s _ => S s) 0%nat Examples.savedPointer)
    as (_ & _ & _ & _ & _ & _ & H).
  apply H; discriminate.
Defined.

(** ** Further facts: the progress bar and the share panel *)

Section NextTierFacts.
Import TierEngine.

Lemma find_app_skip {A} (p : A -> bool) (l1 l2 : list A) :
  Forall (fun u => p u = false) l1 -> List.find p (l1 ++ l2) = List.find p l2.
Proof.
  induction l1 as [|a l1 IH]; intros H; [reflexivity|].
  apply Forall_cons in H. destruct H as [Ha H]. simpl. rewrite Ha. apply IH, H.
Qed.

Lemma find_split {A} (p : A -> bool) (xs : list A) (x : A) :
  List.find p xs = Some x ->
  exists pre post,
    xs = pre ++ x :: post /\ p x = true /\ Forall (fun u => p u = false) pre.
Proof.
  induction xs as [|a xs IH]; simpl; intros H; [discriminate|].
  destruct (p a) eqn:Hpa.
  - injection H as <-. exists [], xs. repeat split; auto.
  - destruct (IH H) as (pre & post & -> & Hx & Hpre).
    exists (a :: pre), post. repeat split; auto.
Qed.

Lemma find_none_all {A} (p : A -> bool) (xs : list A) :
  List.find p xs = None <-> Forall (fun u => p u = false) xs.
Proof.
  induction xs as [|a xs IH]; simpl.
  - split; [constructor|reflexivity].
  - destruct (p a) eqn:Hpa.
    + split; [discriminate|]. intros H. apply Forall_cons in H. destruct H. congruence.
    + rewrite IH. split; [intros H; constructor; auto|].
      intros H. apply Forall_cons in H. tauto.
Qed.

(** The next tier of any table is its first tier larger than the count. *)
Lemma nextTierOf_first_larger (tiers : list DiscountTier) (n : Z) (t : DiscountTier) :
  nextTierOf tiers n = Some t ->
  exists pre post,
    tiers = pre ++ t :: post /\ n < dt_size t /\ Forall (fun u => dt_size u <= n) pre.
Proof.
  unfold nextTierOf, JS.find. intros H.
  destruct (find_split _ _ _ H) as (pre & post & Heq & Hx & Hpre).
  exists pre, post. repeat split; auto; [lia|].
  eapply Forall_impl; [exact Hpre|]. simpl. intros u Hu. simpl in Hu. lia.
Qed.

Lemma nextTierOf_absent (tiers : list DiscountTier) (n : Z) :
  nextTierOf tiers n = None <-> Forall (fun u => dt_size u <= n) tiers.
Proof.
  unfold nextTierOf, JS.find. rewrite find_none_all.
  split; intros H; (eapply Forall_impl; [exact H|]); simpl; intros u Hu; simpl in *; lia.
Qed.

(** In an ascending table every tier before a given one is smaller. *)
Lemma ascending_before (pre post : list DiscountTier) (c : DiscountTier) :
  ascending (pre ++ c :: post) ->
  Forall (fun u => dt_size u < dt_size c) pre /\
  Forall (fun u => dt_size c < dt_size u) post.
Proof.
  unfold ascending. induction pre as [|a pre IH]; simpl; intros Hs.
  - apply StronglySorted_inv in Hs. destruct Hs as [_ Hall]. split; [constructor|exact Hall].
  - apply StronglySorted_inv in Hs. destruct Hs as [Hs Hall].
    destruct (IH Hs) as [Hpre Hpost]. split; [|exact Hpost].
    constructor; [|exact Hpre].
    rewrite Forall_forall in Hall. apply Hall.
    apply list_elem_of_In, in_or_app. right. left. reflexivity.
Qed.

(** On the page's table the next tier is absent exactly from the top
    size on. *)
Lemma nextTier_absent_from_top (n : Z) :
  nextTier n = None <-> ProgressBar.maxSize <= n.
Proof.
  unfold nextTier. rewrite nextTierOf_absent.
  change ProgressBar.maxSize with 8. unfold DISCOUNT_TIERS. split.
  - intros H. repeat (apply Forall_cons in H; destruct H as [? H]). simpl in *. lia.
  - intros H. repeat constructor; simpl; lia.
Qed.

End NextTierFacts.

(** X1. The tier [ProgressBar] announces as next is the first tier of the
    table whose size exceeds the count, so the number in "N mer" is at least
    1; on the page's table it is absent exactly from the top size on. *)
Theorem next_tier_is_first_larger (tiers : list DiscountTier) (n : Z) :
  (TierEngine.nextTierOf tiers n = None <-> Forall (fun u => dt_size u <= n) tiers) /\
  (forall t,
      TierEngine.nextTierOf tiers n = Some t ->
      1 <= ProgressBar.moreNeeded n t /\
      exists pre post,
        tiers = pre ++ t :: post /\ Forall (fun u => dt_size u <= n) pre) /\
  (TierEngine.nextTier n = None <-> ProgressBar.maxSize <= n).
Proof.
  split; [apply nextTierOf_absent|]. split.
  - intros t Ht. destruct (nextTierOf_first_larger _ _ _ Ht) as (pre & post & Heq & Hlt & Hpre).
    split; [unfold ProgressBar.moreNeeded; lia|]. exists pre, post. auto.
  - apply nextTier_absent_from_top.
Qed.

(** X2. On an ascending table, when the current tier is one the count has
    reached, the next tier is the tier right after it in the table; when the
    count is below every tier, the floor tier is shown both as the current
    and as the next tier. *)
Theorem current_and_next_tier_adjacent
        (tiers : list DiscountTier) (n : Z) (c x : DiscountTier) :
  TierEngine.ascending tiers ->
  TierEngine.currentTierOf tiers n = Some c ->
  TierEngine.nextTierOf tiers n = Some x ->
  (dt_size c <= n /\ exists pre post, tiers = pre ++ c :: x :: post) \/
  (n < dt_size c /\ x = c /\ head tiers = Some c).
Proof.
  intros Hasc Hc Hx.
  destruct (currentTierOf_spec _ _ _ Hc) as [(pre & post & Heq & Hle & Hpost)|[Hall Hhead]].
  - left. split; [exact Hle|]. exists pre.
    subst tiers. destruct (ascending_before _ _ _ Hasc) as [Hpre _].
    unfold TierEngine.nextTierOf, JS.find in Hx.
    rewrite find_app_skip in Hx.
    2:{ eapply Forall_impl; [exact Hpre|]. simpl. intros u Hu. simpl in Hu.
        rewrite Z.gtb_ltb. apply Z.ltb_ge. lia. }
    simpl in Hx.
    replace (dt_size c >? n) with false in Hx
      by (symmetry; rewrite Z.gtb_ltb; apply Z.ltb_ge; lia).
    destruct post as [|y post']; [discriminate|].
    apply Forall_cons in Hpost. destruct Hpost as [Hy _]. simpl in Hx, Hy.
    replace (dt_size y >? n) with true in Hx by (symmetry; apply Z.gtb_lt; lia).
    injection Hx as <-. exists post'. reflexivity.
  - right. destruct tiers as [|a tl]; [discriminate|].
    simpl in Hhead. injection Hhead as ->.
    apply Forall_cons in Hall. destruct Hall as [Hlt _].
    split; [exact Hlt|]. split; [|reflexivity].
    unfold TierEngine.nextTierOf, JS.find in Hx. simpl in Hx.
    replace (dt_size c >? n) with true in Hx by (symmetry; apply Z.gtb_lt; lia).
    congruence.
Qed.

Lemma current_and_next_tier_adjacent_witness :
  (dt_size (mkTier 4 20 "20% rabatt") <= 5 /\
   exists pre post,
     DISCOUNT_TIERS = pre ++ mkTier 4 20 "20% rabatt" :: mkTier 6 30 "30% rabatt" :: post) \/
  (5 < dt_size (mkTier 4 20 "20% rabatt") /\
   mkTier 6 30 "30% rabatt" = mkTier 4 20 "20% rabatt" /\
   head DISCOUNT_TIERS = Some (mkTier 4 20 "20% rabatt")).
Proof.
  apply (current_and_next_tier_adjacent DISCOUNT_TIERS 5).
  - exact DISCOUNT_TIERS_ascending.
  - reflexivity.
  - reflexivity.
Defined.

Lemma next_tier_is_first_larger_witness :
  1 <= ProgressBar.moreNeeded 5 (mkTier 6 30 "30% rabatt") /\
  exists pre post,
    DISCOUNT_TIERS = pre ++ mkTier 6 30 "30% rabatt" :: post /\
    Forall (fun u => dt_size u <= 5) pre.
Proof.
  destruct (next_tier_is_first_larger DISCOUNT_TIERS 5) as (_ & H & _).
  apply H. reflexivity.
Defined.

(** X3. The share panel of the lobby page: below the top tier the button
    is handed the next tier, the badge is shown and the number on it is the
    exact distance to that tier, at least 1; from the top tier on it is
    handed the top tier, no badge is shown, the number needed is 0 and the
    text says the group already has the top discount. *)
Theorem share_panel_distance_to_next_tier (n : Z) :
  exists t,
    ShareButton.nextTierOrTop n = Some t /\
    (n < ProgressBar.maxSize ->
     TierEngine.nextTier n = Some t /\
     1 <= ShareButton.membersNeeded (dt_size t) n /\
     ShareButton.membersNeeded (dt_size t) n = dt_size t - n /\
     ShareButton.showsBadge (dt_size t) n = true /\
     ShareButton.shareText (dt_size t) (dt_discount t) n =
       ShareButton.NeedMore (dt_size t - n) (dt_discount t)) /\
    (ProgressBar.maxSize <= n ->
     t = mkTier 8 40 "Beste pris!" /\
     ShareButton.membersNeeded (dt_size t) n = 0 /\
     ShareButton.showsBadge (dt_size t) n = false /\
     ShareButton.shareText (dt_size t) (dt_discount t) n = ShareButton.AlreadyHave 40).
Proof.
  change ProgressBar.maxSize with 8.
  destruct (TierEngine.nextTier n) as [t|] eqn:Hn.
  - exists t. split; [unfold ShareButton.nextTierOrTop; rewrite Hn; reflexivity|].
    pose proof (nextTier_absent_from_top n) as Hnone.
    assert (Hmore : n < dt_size t).
    { destruct (nextTierOf_first_larger _ _ _ Hn) as (pre & post & _ & Hlt & _). exact Hlt. }
    assert (Hneed : ShareButton.membersNeeded (dt_size t) n = dt_size t - n)
      by (unfold ShareButton.membersNeeded; lia).
    split.
    + intros _. split; [reflexivity|]. split; [lia|]. split; [exact Hneed|].
      unfold ShareButton.shareText, ShareButton.showsBadge. rewrite Hneed.
      replace (dt_size t - n >? 0) with true by (symmetry; apply Z.gtb_lt; lia).
      split; reflexivity.
    + intros Hge. exfalso.
      change ProgressBar.maxSize with 8 in Hnone. apply Hnone in Hge.
      congruence.
  - exists (mkTier 8 40 "Beste pris!").
    split; [unfold ShareButton.nextTierOrTop; rewrite Hn; reflexivity|].
    pose proof (nextTier_absent_from_top n) as Hnone.
    change ProgressBar.maxSize with 8 in Hnone.
    assert (Hge : 8 <= n) by (apply Hnone; exact Hn).
    split; [intros Hlt; lia|]. intros _.
    assert (Hneed : ShareButton.membersNeeded 8 n = 0)
      by (unfold ShareButton.membersNeeded; lia).
    cbn [dt_size dt_discount].
    unfold ShareButton.shareText, ShareButton.showsBadge. rewrite Hneed.
    repeat split; reflexivity.
Qed.

Lemma share_panel_distance_witness :
  exists t,
    ShareButton.nextTierOrTop 5 = Some t /\
    ShareButton.membersNeeded (dt_size t) 5 = dt_size t - 5.
Proof.
  destruct (share_panel_distance_to_next_tier 5) as (t & Ht & Hbelow & _).
  exists t. split; [exact Ht|].
  destruct Hbelow as (_ & _ & H & _); [vm_compute; reflexivity|exact H].
Defined.

(** X4. The width of the progress bar is a percentage between 0 and 100
    for every non-negative count: 12.5 per member below the top tier size,
    and exactly 100 from the top tier size on. *)
Theorem progress_bar_width_clamped (n : Z) :
  0 <= n ->
  (0 <= ProgressBar.progress n)%Q /\
  (ProgressBar.progress n <= 100)%Q /\
  (n < ProgressBar.maxSize ->
   (ProgressBar.progress n == inject_Z n * (25 # 2))%Q /\
   (ProgressBar.progress n < 100)%Q) /\
  (ProgressBar.maxSize <= n -> (ProgressBar.progress n == 100)%Q).
Proof.
  intros Hn. unfold ProgressBar.progress. change ProgressBar.maxSize with 8.
  assert (Hx : (inject_Z n / inject_Z 8 * 100 == inject_Z n * (25 # 2))%Q).
  { unfold Qeq, Qdiv, Qmult, Qinv, inject_Z. simpl. lia. }
  assert (Hlt : n < 8 -> (inject_Z n / inject_Z 8 * 100 < 100)%Q).
  { intros H. rewrite Hx. unfold Qlt, Qmult, inject_Z. simpl. lia. }
  assert (Hge : 8 <= n -> (100 <= inject_Z n / inject_Z 8 * 100)%Q).
  { intros H. rewrite Hx. unfold Qle, Qmult, inject_Z. simpl. lia. }
  assert (H0 : (0 <= inject_Z n / inject_Z 8 * 100)%Q).
  { rewrite Hx. unfold Qle, Qmult, inject_Z. simpl. lia. }
  split; [|split; [|split]].
  - apply Q.min_glb; [exact H0|]. unfold Qle. simpl. lia.
  - apply Q.le_min_r.
  - intros H. specialize (Hlt H).
    assert (Hmin : (Qmin (inject_Z n / inject_Z 8 * 100) 100 ==
                    inject_Z n / inject_Z 8 * 100)%Q)
      by (apply Q.min_l, Qlt_le_weak, Hlt).
    split; [rewrite Hmin; exact Hx|rewrite Hmin; exact Hlt].
  - intros H. apply Q.min_r. exact (Hge H).
Qed.

Lemma progress_bar_width_witness :
  (0 <= ProgressBar.progress 5)%Q /\ (ProgressBar.progress 5 <= 100)%Q.
Proof.
  destruct (progress_bar_width_clamped 5) as (H0 & H1 & _); [lia|].
  split; [exact H0|exact H1].
Defined.

(** X5. The invite button of [ShareButton]: the link is written to the
    clipboard at most once and only as the fallback; a native share that
    succeeds writes nothing, a share the user cancels writes nothing and
    shows no toast, and every other path ends with exactly one toast; the
    button reads "copied" exactly when the "link copied" toast was shown. *)
Theorem share_button_outcomes (lobbyUrl : string) (api : ShareButton.ShareApi)
        (clipboardOk : bool) :
  let o := ShareButton.handleShare lobbyUrl api clipboardOk in
  (length (ShareButton.sh_clipboard o) <= 1)%nat /\
  Forall (fun url => url = lobbyUrl) (ShareButton.sh_clipboard o) /\
  (ShareButton.sh_clipboard o = [] <->
   api = ShareButton.ShareResolves \/ api = ShareButton.ShareAborted) /\
  (ShareButton.sh_toasts o = [] <-> api = ShareButton.ShareAborted) /\
  (length (ShareButton.sh_toasts o) <= 1)%nat /\
  (ShareButton.sh_isCopied o = true <->
   In ShareButton.ToastLinkCopied (ShareButton.sh_toasts o)).
Proof.
  cbv zeta. unfold ShareButton.handleShare, ShareButton.copyToClipboard.
  destruct api, clipboardOk; cbn [ShareButton.sh_clipboard ShareButton.sh_toasts
                                  ShareButton.sh_isCopied length];
    repeat split; try lia; try (repeat constructor; fail);
      try (intros H; discriminate H);
      try (intros [H|H]; discriminate H);
      try (intros _; auto; fail);
      try (intros [H|[]]; discriminate H);
      try (intros []; fail);
      auto.
Qed.

(** ** Further facts: the member list *)

(** X6. A row of the member list never shows both the "Klar!" button and
    the ready indicator; it shows neither exactly when it is the current
    user's row, the user is not ready and the lobby is not OPEN. The header
    count of ready members never exceeds the number of members and equals it
    exactly when every member is ready. *)
Theorem member_row_controls
        (currentUserName lobbyStatus : string) (m : MemberInfo) (ms : list MemberInfo) :
  MemberList.showsReadyButton currentUserName lobbyStatus m
    && MemberList.showsIndicator currentUserName m = false /\
  (MemberList.showsReadyButton currentUserName lobbyStatus m
     || MemberList.showsIndicator currentUserName m = false <->
   user_name m = currentUserName /\ is_ready m = false /\ lobbyStatus <> "OPEN") /\
  (MemberList.readyCount ms <= length ms)%nat /\
  (MemberList.readyCount ms = length ms <-> Forall (fun x => is_ready x = true) ms).
Proof.
  unfold MemberList.showsReadyButton, MemberList.showsIndicator, MemberList.isCurrentUser,
    MemberList.readyCount, JS.filter.
  split; [|split; [|split]].
  - destruct (JS.str_eq (user_name m) currentUserName), (JS.str_eq lobbyStatus "OPEN"),
      (is_ready m); reflexivity.
  - pose proof (str_eq_true (user_name m) currentUserName) as Hu1.
    pose proof (str_eq_false (user_name m) currentUserName) as Hu0.
    pose proof (str_eq_true lobbyStatus "OPEN") as Hs1.
    pose proof (str_eq_false lobbyStatus "OPEN") as Hs0.
    destruct (JS.str_eq (user_name m) currentUserName),
      (JS.str_eq lobbyStatus "OPEN"), (is_ready m); cbn [andb orb negb];
      split; try discriminate; try (intros (Ha & Hb & Hc)); try (intros _);
      try (exfalso; apply Hc, Hs1; reflexivity);
      try (exfalso; apply (proj1 Hu0); [reflexivity|exact Ha]);
      try discriminate.
    + repeat split; [apply Hu1; reflexivity|apply Hs0; reflexivity].
    + reflexivity.
  - apply List.filter_length_le.
  - induction ms as [|x xs IH]; [split; [constructor|reflexivity]|].
    cbn [List.filter]. pose proof (List.filter_length_le is_ready xs) as Hle.
    destruct (is_ready x) eqn:Hx; cbn [length].
    + split.
      * intros H. injection H as H. constructor; [exact Hx|apply IH, H].
      * intros H. apply Forall_cons in H. destruct H as [_ H]. f_equal. apply IH, H.
    + split; [intros H; lia|].
      intros H. apply Forall_cons in H. destruct H as [H _]. congruence.
Qed.

(** X7. [handleReadyToggle] sends the ready request, once and for the
    current user, exactly when no toggle is in flight and the lobby is OPEN;
    otherwise it does nothing at all. The lobby is re-fetched only after an
    OK response, a not-OK response passes without any toast, and wherever a
    row shows the "Klar!" button the guard on the status lets the click
    through. *)
Theorem ready_toggle_guard
        (isToggling : bool) (lobbyStatus lobbyCode currentUserName : string)
        (r : MemberList.ReadyResult) :
  let o := MemberList.handleReadyToggle isToggling lobbyStatus lobbyCode currentUserName r in
  (isToggling = false /\ lobbyStatus = "OPEN" ->
   MemberList.ro_requests o = [PostReady lobbyCode currentUserName]) /\
  (isToggling = true \/ lobbyStatus <> "OPEN" -> o = MemberList.mkReady [] [] false) /\
  (MemberList.ro_refetch o = true <->
   isToggling = false /\ lobbyStatus = "OPEN" /\ exists all_ready, r = MemberList.ReadyOk all_ready) /\
  (r = MemberList.ReadyNotOk -> MemberList.ro_toasts o = []) /\
  (forall m,
      MemberList.showsReadyButton currentUserName lobbyStatus m = true ->
      isToggling = false ->
      MemberList.ro_requests o = [PostReady lobbyCode currentUserName]).
Proof.
  cbv zeta. unfold MemberList.handleReadyToggle.
  assert (Hopen : lobbyStatus = "OPEN" -> JS.str_eq lobbyStatus "OPEN" = true)
    by (intros ->; reflexivity).
  split; [|split; [|split; [|split]]].
  - intros [-> Hs]. rewrite (Hopen Hs). destruct r; reflexivity.
  - intros [->|Hs]; [reflexivity|].
    apply str_eq_false in Hs. rewrite Hs. rewrite orb_true_r. reflexivity.
  - destruct isToggling; cbn [orb].
    + split; [discriminate|]. intros (H & _). discriminate.
    + destruct (JS.str_eq lobbyStatus "OPEN") eqn:Hs; cbn [negb].
      * apply str_eq_true in Hs.
        destruct r; cbn [MemberList.ro_refetch]; split; try discriminate.
        -- intros (_ & _ & a & Ha). discriminate.
        -- intros (_ & _ & a & Ha). discriminate.
        -- intros _. repeat split; auto. eexists. reflexivity.
        -- reflexivity.
      * apply str_eq_false in Hs. split; [discriminate|]. intros (_ & H & _). contradiction.
  - intros ->. destruct (isToggling || negb (JS.str_eq lobbyStatus "OPEN")); reflexivity.
  - intros m Hm ->. unfold MemberList.showsReadyButton in Hm.
    apply andb_true_iff in Hm. destruct Hm as [Hm _].
    apply andb_true_iff in Hm. destruct Hm as [_ Hs]. rewrite Hs.
    destruct r; reflexivity.
Qed.

(** ** Further facts: prices, tickets and the catalogue *)

Section TicketFacts.

Lemma currentTier_in_table (n : Z) (t : DiscountTier) :
  TierEngine.currentTier n = Some t -> In t DISCOUNT_TIERS.
Proof.
  intros Ht. destruct (currentTierOf_total DISCOUNT_TIERS n) as (t' & Ht' & Hin);
    [discriminate|].
  unfold TierEngine.currentTier in Ht. congruence.
Qed.

Lemma fold_savings_shift (f : Ticket.TicketInfo -> Z) (ts : list Ticket.TicketInfo) (a : Z) :
  fold_left (fun total t => total + f t) ts a =
  a + fold_right Z.add 0 (map f ts).
Proof.
  revert a. induction ts as [|t ts IH]; intros a; simpl; [lia|]. rewrite IH. lia.
Qed.

Lemma sum_permutation (l1 l2 : list Z) :
  Permutation l1 l2 -> fold_right Z.add 0 l1 = fold_right Z.add 0 l2.
Proof. induction 1; simpl; lia. Qed.

End TicketFacts.

(** X8. The price on the confirmed screen loses nothing to rounding: for
    the tier of any member count it is the base price of 250 less the tier's
    percentage exactly, and [ConfirmedTicket], which recomputes the
    percentage from the two prices, shows the tier's discount again; the
    total it reports as saved is that percentage of 250 for each member. *)
Theorem confirmed_ticket_round_trip (n : Z) (t : DiscountTier) :
  TierEngine.currentTier n = Some t ->
  let price := Ticket.currentPrice (dt_discount t) in
  price * 100 = Ticket.basePrice * (100 - dt_discount t) /\
  Ticket.discountPercent Ticket.basePrice price = dt_discount t /\
  Ticket.totalSaved Ticket.basePrice price n * 100 = Ticket.basePrice * dt_discount t * n.
Proof.
  intros Ht. apply currentTier_in_table in Ht. cbv zeta.
  unfold Ticket.totalSaved.
  unfold DISCOUNT_TIERS in Ht. simpl in Ht.
  destruct Ht as [<-|[<-|[<-|[<-|[]]]]]; cbn [dt_discount].
  - change (Ticket.currentPrice 0) with 250. change Ticket.basePrice with 250.
    split; [reflexivity|]. split; [reflexivity|]. lia.
  - change (Ticket.currentPrice 20) with 200. change Ticket.basePrice with 250.
    split; [reflexivity|]. split; [reflexivity|]. lia.
  - change (Ticket.currentPrice 30) with 175. change Ticket.basePrice with 250.
    split; [reflexivity|]. split; [reflexivity|]. lia.
  - change (Ticket.currentPrice 40) with 150. change Ticket.basePrice with 250.
    split; [reflexivity|]. split; [reflexivity|]. lia.
Qed.

Lemma confirmed_ticket_round_trip_witness :
  Ticket.discountPercent Ticket.basePrice (Ticket.currentPrice 20) = 20.
Proof.
  destruct (confirmed_ticket_round_trip 5 (mkTier 4 20 "20% rabatt")) as (_ & H & _).
  - reflexivity.
  - exact H.
Defined.

(** X9. The lifetime savings of the tickets page do not depend on the
    order of the tickets, so sorting them by date first changes nothing, and
    they are the sum of what [ConfirmedTicket] reports as saved on each
    ticket. *)
Theorem lifetime_savings_order_free (tickets sorted : list Ticket.TicketInfo) :
  Permutation tickets sorted ->
  Ticket.calculateLifetimeSavings sorted = Ticket.calculateLifetimeSavings tickets /\
  Ticket.calculateLifetimeSavings tickets =
    fold_right Z.add 0
      (map (fun t => Ticket.totalSaved (Ticket.tkt_originalPrice t)
                                       (Ticket.tkt_pricePerPerson t)
                                       (Ticket.tkt_groupSize t)) tickets).
Proof.
  intros Hp. unfold Ticket.calculateLifetimeSavings, Ticket.totalSaved.
  rewrite !(fold_savings_shift
              (fun t => (Ticket.tkt_originalPrice t - Ticket.tkt_pricePerPerson t)
                        * Ticket.tkt_groupSize t)).
  split; [|lia].
  f_equal. apply sum_permutation. apply Permutation_map. symmetry. exact Hp.
Qed.

Lemma lifetime_savings_order_free_witness :
  Ticket.calculateLifetimeSavings
    [Ticket.mkTicket "XYZ789" 8 400 500; Ticket.mkTicket "ABC123" 6 175 250] =
  Ticket.calculateLifetimeSavings
    [Ticket.mkTicket "ABC123" 6 175 250; Ticket.mkTicket "XYZ789" 8 400 500].
Proof.
  destruct (lifetime_savings_order_free
              [Ticket.mkTicket "ABC123" 6 175 250; Ticket.mkTicket "XYZ789" 8 400 500]
              [Ticket.mkTicket "XYZ789" 8 400 500; Ticket.mkTicket "ABC123" 6 175 250])
    as [H _].
  - apply perm_swap.
  - exact H.
Defined.

(** X10. Looking a catalogue entry up by its own id returns that entry
    (the ids of the catalogue are distinct); a lookup that succeeds returns
    an entry of the catalogue with the id asked for, and a lookup fails
    exactly for the ids no entry has. *)
Theorem getBusinessById_round_trip :
  (forall b, In b MOCK_BUSINESSES -> getBusinessById (b_id b) = Some b) /\
  (forall id b, getBusinessById id = Some b -> b_id b = id /\ In b MOCK_BUSINESSES) /\
  (forall id, getBusinessById id = None <-> forall b, In b MOCK_BUSINESSES -> b_id b <> id).
Proof.
  split; [|split].
  - intros b Hb. unfold MOCK_BUSINESSES in Hb. simpl in Hb.
    destruct Hb as [<-|[<-|[<-|[<-|[]]]]]; reflexivity.
  - intros id b H. unfold getBusinessById, JS.find in H.
    apply find_some in H. destruct H as [Hin Heq].
    apply str_eq_true in Heq. split; [exact Heq|exact Hin].
  - intros id. unfold getBusinessById, JS.find. rewrite find_none_all.
    rewrite Forall_forall. split.
    + intros H b Hb. apply str_eq_false. apply H. apply list_elem_of_In. exact Hb.
    + intros H b Hb. apply str_eq_false. apply H. apply list_elem_of_In. exact Hb.
Qed.

(** ** Further facts: what a sequence of fetches keeps *)

Section HeldFacts.
Import Fetch Reconcile.

Variable lobbyCode : string.
Hypothesis code_given : lobbyCode <> "".

Lemma fetch_state (r : FetchResult) (st : PageState) (ls : Storage) :
  let st' := (fetchLobbyData lobbyCode r st ls).1.1 in
  isLoading st' = false /\
  hasJoined st' = hasJoined st /\
  error st' = Held.errorOf r /\
  lobby st' = match r with Ok d => Some d | _ => lobby st end /\
  prevMemberCountRef st' = match r with Ok d => member_count d | _ => prevMemberCountRef st end /\
  prevStatusRef st' = match r with Ok d => status d | _ => prevStatusRef st end.
Proof.
  cbv zeta. unfold fetchLobbyData. rewrite (nonempty_code _ code_given).
  destruct r as [|c|d]; cbn [fst]; [repeat split| |repeat split].
  unfold Held.errorOf. destruct (c =? 404); repeat split.
Qed.

Lemma polls_state (rs : list FetchResult) :
  forall (st : PageState) (ls : Storage),
    let st' := (polls lobbyCode rs st ls).1.1 in
    hasJoined st' = hasJoined st /\
    (rs <> [] -> isLoading st' = false) /\
    error st' = match last rs with Some r => Held.errorOf r | None => error st end /\
    lobby st' = JS.or_else (last (snapshots rs)) (lobby st) /\
    (prevMemberCountRef st = Held.countOf (lobby st) ->
     prevMemberCountRef st' = Held.countOf (lobby st')) /\
    (prevStatusRef st = Held.statusOf (lobby st) ->
     prevStatusRef st' = Held.statusOf (lobby st')).
Proof.
  induction rs as [|r rs IH]; intros st ls; cbv zeta.
  - cbn [polls fst last snapshots JS.or_else]. repeat split; auto. congruence.
  - rewrite polls_cons. cbv zeta. cbn [fst].
    destruct (fetch_state r st ls) as (Hl & Hj & He & Hlob & Hc & Hs).
    specialize (IH (fetchLobbyData lobbyCode r st ls).1.1 (fetchLobbyData lobbyCode r st ls).1.2).
    cbv zeta in IH. destruct IH as (IHj & IHl & IHe & IHlob & IHc & IHs).
    split; [congruence|]. split.
    { intros _. destruct rs as [|r' rs']; [exact Hl|]. apply IHl. discriminate. }
    split.
    { rewrite IHe. rewrite last_cons. destruct (last rs); [reflexivity|exact He]. }
    assert (Hlobby : lobby (polls lobbyCode rs (fetchLobbyData lobbyCode r st ls).1.1
                              (fetchLobbyData lobbyCode r st ls).1.2).1.1 =
                     JS.or_else (last (snapshots (r :: rs))) (lobby st)).
    { rewrite IHlob, Hlob. destruct r as [|c|d]; cbn [snapshots]; try reflexivity.
      rewrite last_cons. destruct (last (snapshots rs)); reflexivity. }
    split; [exact Hlobby|]. split.
    + intros Hagree. apply IHc. rewrite Hc, Hlob.
      destruct r; [exact Hagree|exact Hagree|reflexivity].
    + intros Hagree. apply IHs. rewrite Hs, Hlob.
      destruct r; [exact Hagree|exact Hagree|reflexivity].
Qed.

End HeldFacts.

(** X11. After any sequence of fetches from the initial page state the
    page holds the last snapshot that was delivered, failures in between
    notwithstanding; the two refs used for the notifications are the member
    count and status of that snapshot (0 and the empty string when none was
    delivered); the loading flag is off once any fetch has completed; and the
    error state is decided by the last result alone. *)
Theorem held_lobby_is_last_snapshot
        (lobbyCode : string) (rs : list FetchResult) (ls : Storage) :
  lobbyCode <> "" ->
  let st := (Fetch.polls lobbyCode rs initialPage ls).1.1 in
  lobby st = last (Reconcile.snapshots rs) /\
  prevMemberCountRef st = Held.countOf (lobby st) /\
  prevStatusRef st = Held.statusOf (lobby st) /\
  (rs <> [] -> isLoading st = false) /\
  error st = match last rs with Some r => Held.errorOf r | None => None end.
Proof.
  intros Hc. cbv zeta.
  destruct (polls_state lobbyCode Hc rs initialPage ls) as (_ & Hl & He & Hlob & Hcnt & Hst).
  split.
  { rewrite Hlob. cbn [lobby initialPage].
    destruct (last (Reconcile.snapshots rs)); reflexivity. }
  split; [apply Hcnt; reflexivity|]. split; [apply Hst; reflexivity|].
  split; [exact Hl|exact He].
Qed.

Lemma held_lobby_is_last_snapshot_witness :
  lobby (Fetch.polls "ABC123" [Ok Examples.bowlingLobby; Rejected; NotOk 404]
                     initialPage ∅).1.1 =
  last (Reconcile.snapshots [Ok Examples.bowlingLobby; Rejected; NotOk 404]).
Proof.
  destruct (held_lobby_is_last_snapshot
              "ABC123" [Ok Examples.bowlingLobby; Rejected; NotOk 404] ∅) as [H _].
  - discriminate.
  - exact H.
Defined.

(** X12. Without a lobby code [fetchLobbyData] returns before it does
    anything: whatever the server would answer, any number of invocations
    leave the page state and the storage as they were and emit nothing, so a
    page mounted without a code shows the loading screen for good. *)
Theorem empty_code_never_leaves_loading
        (rs : list FetchResult) (st : PageState) (ls : Storage) (user : option User) :
  Fetch.polls "" rs st ls = (st, ls, []) /\
  View.render "" user (Fetch.polls "" rs initialPage ls).1.1 ls = (LoadingScreen, ls).
Proof.
  assert (H : forall st0, Fetch.polls "" rs st0 ls = (st0, ls, [])).
  { induction rs as [|r rs IH]; intros st0; [reflexivity|].
    rewrite polls_cons. cbv zeta. cbn [Fetch.fetchLobbyData JS.str_eq String.eqb fst snd].
    rewrite IH. reflexivity. }
  split; [apply H|]. rewrite H. reflexivity.
Qed.

(** X13. A fetch that fails while a lobby is held keeps the held snapshot
    and both refs but hides the lobby behind the not-found screen; the next
    successful fetch clears the error, replaces the snapshot and shows a
    lobby screen again, never the loading or the not-found screen. *)
Theorem failed_fetch_hides_held_lobby
        (lobbyCode : string) (user : option User) (r : FetchResult) (data : LobbyData)
        (st : PageState) (ls : Storage) :
  lobbyCode <> "" ->
  (forall d, r <> Ok d) ->
  let failed := View.fetchAndRender lobbyCode user r st ls in
  let recovered := View.fetchAndRender lobbyCode user (Ok data)
                     (View.tk_state failed) (View.tk_storage failed) in
  View.tk_screen failed = NotFoundScreen /\
  lobby (View.tk_state failed) = lobby st /\
  prevMemberCountRef (View.tk_state failed) = prevMemberCountRef st /\
  prevStatusRef (View.tk_state failed) = prevStatusRef st /\
  View.tk_toasts failed = [] /\
  error (View.tk_state recovered) = None /\
  lobby (View.tk_state recovered) = Some data /\
  GateSpec.kindOf (View.tk_screen recovered) <> KLoading /\
  GateSpec.kindOf (View.tk_screen recovered) <> KNotFound.
Proof.
  intros Hc Hr. cbv zeta.
  destruct (fetchAndRender_failed lobbyCode user r st ls Hc Hr) as [Hscr _].
  split; [exact Hscr|].
  assert (Hfailed : View.tk_state (View.fetchAndRender lobbyCode user r st ls) =
                    (Fetch.fetchLobbyData lobbyCode r st ls).1.1 /\
                    View.tk_toasts (View.fetchAndRender lobbyCode user r st ls) =
                    (Fetch.fetchLobbyData lobbyCode r st ls).2).
  { unfold View.fetchAndRender.
    destruct (Fetch.fetchLobbyData lobbyCode r st ls) as [[st1 ls1] ts].
    destruct (View.render lobbyCode user st1 ls1). split; reflexivity. }
  destruct Hfailed as [Hst Hts]. rewrite Hst, Hts.
  destruct (fetch_state lobbyCode Hc r st ls) as (_ & _ & _ & Hlob & Hcnt & Hsta).
  destruct (fetch_failed lobbyCode r st ls Hr) as (_ & _ & _ & Hno).
  split; [rewrite Hlob; destruct r; try reflexivity; exfalso; eapply Hr; reflexivity|].
  split; [rewrite Hcnt; destruct r; try reflexivity; exfalso; eapply Hr; reflexivity|].
  split; [rewrite Hsta; destruct r; try reflexivity; exfalso; eapply Hr; reflexivity|].
  split; [exact Hno|].
  set (st1 := (Fetch.fetchLobbyData lobbyCode r st ls).1.1).
  set (ls1 := View.tk_storage (View.fetchAndRender lobbyCode user r st ls)).
  unfold View.fetchAndRender. rewrite (fetch_ok _ _ _ _ Hc).
  destruct (View.render lobbyCode user _ _) as [scr ls2] eqn:Hrender.
  cbn [View.tk_state View.tk_screen error lobby].
  split; [reflexivity|]. split; [reflexivity|].
  assert (Hscreen : scr = (View.render lobbyCode user
                             (mkPage (Some data) false None (hasJoined st1)
                                     (member_count data) (status data))
                             (Fetch.updatePointer data ls1)).1)
    by (rewrite Hrender; reflexivity).
  rewrite Hscreen. unfold View.render. cbn [isLoading error lobby JS.truthy_str hasJoined].
  destruct (negb (View.isUserInLobby user data) && negb (hasJoined st1)).
  - split; discriminate.
  - destruct (JS.str_eq (status data) "CONFIRMED"); cbn [fst GateSpec.kindOf].
    + split; discriminate.
    + destruct (View.offerCard data); split; discriminate.
Qed.

Lemma failed_fetch_hides_held_lobby_witness :
  View.tk_screen
    (View.fetchAndRender "ABC123" (Some Examples.kari) Rejected
                         (Examples.pageShowing Examples.bowlingLobby) ∅) = NotFoundScreen.
Proof.
  destruct (failed_fetch_hides_held_lobby
              "ABC123" (Some Examples.kari) Rejected Examples.bowlingLobby
              (Examples.pageShowing Examples.bowlingLobby) ∅) as [H _].
  - discriminate.
  - discriminate.
  - exact H.
Defined.

(** ** Further facts: the storage frame and the join flag *)

Section FrameFacts.

Lemma updatePointer_other (data : LobbyData) (ls : Storage) (k : string) :
  k <> ACTIVE_LOBBY_KEY -> k <> ACTIVE_BUSINESS_KEY ->
  Fetch.updatePointer data ls !! k = ls !! k.
Proof.
  intros H1 H2. unfold Fetch.updatePointer.
  destruct (JS.str_eq (status data) "OPEN");
    destruct (JS.str_eq (status data) "EXPIRED" || JS.str_eq (status data) "CONFIRMED");
    rewrite ?clearActiveLobby_other by assumption;
    rewrite ?lookup_insert_ne by auto; reflexivity.
Qed.

Lemma clearIfSaved_other (lobbyCode : string) (ls : Storage) (k : string) :
  k <> ACTIVE_LOBBY_KEY -> k <> ACTIVE_BUSINESS_KEY ->
  View.clearIfSaved lobbyCode ls !! k = ls !! k.
Proof.
  intros H1 H2. unfold View.clearIfSaved.
  destruct (ls !! ACTIVE_LOBBY_KEY) as [saved|]; [|reflexivity].
  destruct (JS.str_eq saved lobbyCode); [|reflexivity].
  apply clearActiveLobby_other; assumption.
Qed.

Lemma render_storage_cases (lobbyCode : string) (user : option User)
      (st : PageState) (ls : Storage) :
  (View.render lobbyCode user st ls).2 = ls \/
  (View.render lobbyCode user st ls).2 = View.clearIfSaved lobbyCode ls.
Proof.
  unfold View.render. destruct (isLoading st); [left; reflexivity|].
  destruct (JS.truthy_str (error st)); [destruct (lobby st); right; reflexivity|].
  destruct (lobby st) as [l|]; [|right; reflexivity].
  destruct (negb (View.isUserInLobby user l) && negb (hasJoined st)); [left; reflexivity|].
  destruct (JS.str_eq (status l) "CONFIRMED"); left; reflexivity.
Qed.

Lemma fetch_storage_cases (lobbyCode : string) (r : FetchResult)
      (st : PageState) (ls : Storage) :
  (Fetch.fetchLobbyData lobbyCode r st ls).1.2 = ls \/
  exists data, r = Ok data /\
               (Fetch.fetchLobbyData lobbyCode r st ls).1.2 = Fetch.updatePointer data ls.
Proof.
  unfold Fetch.fetchLobbyData. destruct (JS.str_eq lobbyCode ""); [left; reflexivity|].
  destruct r as [|c|d]; [left; reflexivity| |right; exists d; split; reflexivity].
  destruct (c =? 404); left; reflexivity.
Qed.

Lemma fetchAndRender_storage (lobbyCode : string) (user : option User)
      (r : FetchResult) (st : PageState) (ls : Storage) :
  View.tk_storage (View.fetchAndRender lobbyCode user r st ls) =
  (View.render lobbyCode user (Fetch.fetchLobbyData lobbyCode r st ls).1.1
               (Fetch.fetchLobbyData lobbyCode r st ls).1.2).2.
Proof.
  unfold View.fetchAndRender.
  destruct (Fetch.fetchLobbyData lobbyCode r st ls) as [[st1 ls1] ts]. cbn [fst snd].
  destruct (View.render lobbyCode user st1 ls1). reflexivity.
Qed.

Lemma fetch_keeps_hasJoined (lobbyCode : string) (r : FetchResult)
      (st : PageState) (ls : Storage) :
  hasJoined (Fetch.fetchLobbyData lobbyCode r st ls).1.1 = hasJoined st.
Proof.
  unfold Fetch.fetchLobbyData. destruct (JS.str_eq lobbyCode ""); [reflexivity|].
  destruct r as [|c|d]; [reflexivity| |reflexivity]. destruct (c =? 404); reflexivity.
Qed.

Lemma polls_keeps_hasJoined (lobbyCode : string) (rs : list FetchResult) :
  forall (st : PageState) (ls : Storage),
    hasJoined (Fetch.polls lobbyCode rs st ls).1.1 = hasJoined st.
Proof.
  induction rs as [|r rs IH]; intros st ls; [reflexivity|].
  rewrite polls_cons. cbv zeta. cbn [fst]. rewrite IH. apply fetch_keeps_hasJoined.
Qed.

End FrameFacts.

(** X14. No fetch and no render of the lobby page writes or removes any
    storage key other than the two active-lobby keys, so the guest identity
    under [groupie_user] survives every poll; and a snapshot whose status is
    none of OPEN, EXPIRED and CONFIRMED (a LOCKED lobby) leaves the whole
    storage as it was. *)
Theorem fetch_touches_only_pointer_keys
        (lobbyCode : string) (user : option User) (r : FetchResult)
        (st : PageState) (ls : Storage) :
  (forall k : string,
      k <> ACTIVE_LOBBY_KEY -> k <> ACTIVE_BUSINESS_KEY ->
      View.tk_storage (View.fetchAndRender lobbyCode user r st ls) !! k = ls !! k) /\
  (forall data,
      lobbyCode <> "" -> r = Ok data ->
      status data <> "OPEN" -> status data <> "EXPIRED" -> status data <> "CONFIRMED" ->
      View.tk_storage (View.fetchAndRender lobbyCode user r st ls) = ls).
Proof.
  split.
  - intros k H1 H2. rewrite fetchAndRender_storage.
    assert (Hfetch : (Fetch.fetchLobbyData lobbyCode r st ls).1.2 !! k = ls !! k).
    { destruct (fetch_storage_cases lobbyCode r st ls) as [->|(d & _ & ->)];
        [reflexivity|apply updatePointer_other; assumption]. }
    destruct (render_storage_cases lobbyCode user
                (Fetch.fetchLobbyData lobbyCode r st ls).1.1
                (Fetch.fetchLobbyData lobbyCode r st ls).1.2) as [->| ->].
    + exact Hfetch.
    + rewrite clearIfSaved_other by assumption. exact Hfetch.
  - intros data Hc -> Ho He Hcf. rewrite fetchAndRender_ok_storage by exact Hc.
    unfold Fetch.updatePointer.
    apply str_eq_false in Ho. apply str_eq_false in He. apply str_eq_false in Hcf.
    rewrite Ho, He, Hcf. reflexivity.
Qed.

Lemma fetch_touches_only_pointer_keys_witness :
  View.tk_storage
    (View.fetchAndRender "ABC123" (Some Examples.kari) (Ok Examples.lockedLobby)
                         (Examples.pageShowing Examples.bowlingLobby)
                         Examples.savedPointer) = Examples.savedPointer.
Proof.
  destruct (fetch_touches_only_pointer_keys
              "ABC123" (Some Examples.kari) (Ok Examples.lockedLobby)
              (Examples.pageShowing Examples.bowlingLobby) Examples.savedPointer) as [_ H].
  apply (H Examples.lockedLobby); [discriminate|reflexivity|discriminate..].
Defined.

(** X15. Once a join has succeeded in this page view the join gate never
    comes back: the success sets [hasJoined], no fetch result of any later
    poll resets it, and with it set no render selects the join gate, also
    when the member list of a later snapshot does not contain the user. *)
Theorem joined_user_is_never_gated_again
        (lobbyCode : string) (props : JoinGateProps) (displayName : string)
        (st : PageState) (rs : list FetchResult) (ls ls' : Storage)
        (user : option User) :
  Join.trim displayName <> "" ->
  let st1 := Join.applyOutcome (Join.handleJoin props displayName Join.JoinOk) st in
  let st2 := (Fetch.polls lobbyCode rs st1 ls).1.1 in
  hasJoined st2 = true /\
  GateSpec.kindOf (View.render lobbyCode user st2 ls').1 <> KJoinGate.
Proof.
  intros Hn. cbv zeta.
  assert (Hj : hasJoined
                 (Fetch.polls lobbyCode rs
                    (Join.applyOutcome (Join.handleJoin props displayName Join.JoinOk) st)
                    ls).1.1 = true).
  { rewrite polls_keeps_hasJoined. unfold Join.handleJoin.
    rewrite (nonempty_code _ Hn). reflexivity. }
  split; [exact Hj|].
  set (st2 := (Fetch.polls lobbyCode rs
                 (Join.applyOutcome (Join.handleJoin props displayName Join.JoinOk) st)
                 ls).1.1) in *.
  unfold View.render. rewrite Hj.
  destruct (isLoading st2); [discriminate|].
  destruct (JS.truthy_str (error st2)); [destruct (lobby st2); discriminate|].
  destruct (lobby st2) as [l|]; [|discriminate].
  rewrite andb_false_r.
  destruct (JS.str_eq (status l) "CONFIRMED"); cbn [fst GateSpec.kindOf]; [discriminate|].
  destruct (View.offerCard l); discriminate.
Qed.

Lemma joined_user_is_never_gated_again_witness :
  hasJoined
    (Fetch.polls "ABC123" [Ok Examples.bowlingLobby; Rejected]
       (Join.applyOutcome
          (Join.handleJoin
             (mkJoinGate "ABC123" "Kari" (Some "Strike Zone Bowling") true (Some "Ola"))
             "Ola" Join.JoinOk)
          (Examples.pageShowing Examples.bowlingLobby)) ∅).1.1 = true.
Proof.
  destruct (joined_user_is_never_gated_again
              "ABC123"
              (mkJoinGate "ABC123" "Kari" (Some "Strike Zone Bowling") true (Some "Ola"))
              "Ola" (Examples.pageShowing Examples.bowlingLobby)
              [Ok Examples.bowlingLobby; Rejected] ∅ ∅ (Some Examples.ola)) as [H _].
  - vm_compute. discriminate.
  - exact H.
Defined.

(** ** Further facts: the guest identity *)

Section AuthFacts.

Lemma identity_key_distinct :
  STORAGE_KEY <> ACTIVE_LOBBY_KEY /\ STORAGE_KEY <> ACTIVE_BUSINESS_KEY.
Proof. split; discriminate. Qed.

Lemma logout_lookup (ls : Storage) (k : string) :
  (Auth.logout ls).2 !! k =
  if decide (k = STORAGE_KEY \/ k = ACTIVE_LOBBY_KEY \/ k = ACTIVE_BUSINESS_KEY)
  then None else ls !! k.
Proof.
  unfold Auth.logout. cbn [snd]. rewrite !lookup_delete.
  repeat case_decide; try reflexivity; exfalso; intuition congruence.
Qed.

End AuthFacts.

(** X16. A guest login survives a reload: when [JSON.parse] reads back
    what [JSON.stringify] wrote for the new user, the start-up effect finds
    exactly the user that [login] made current, whose name is the trimmed
    input; the login leaves the active-lobby pointer as it was. *)
Theorem login_survives_reload
        (stringify : User -> string) (parse : string -> option User)
        (id name : string) (ls : Storage) :
  parse (stringify (mkUser id (Join.trim name))) = Some (mkUser id (Join.trim name)) ->
  stringify (mkUser id (Join.trim name)) <> "" ->
  let out := Auth.login stringify id name ls in
  out.1 = mkUser id (Join.trim name) /\
  Auth.hydrate parse out.2 = Some out.1 /\
  out.2 !! ACTIVE_LOBBY_KEY = ls !! ACTIVE_LOBBY_KEY /\
  out.2 !! ACTIVE_BUSINESS_KEY = ls !! ACTIVE_BUSINESS_KEY.
Proof.
  intros Hrt Hne. cbv zeta. unfold Auth.login. cbn [fst snd].
  destruct identity_key_distinct as [H1 H2].
  split; [reflexivity|]. split.
  - unfold Auth.hydrate. rewrite lookup_insert_eq.
    destruct (stringify (mkUser id (Join.trim name))) eqn:Hs; [congruence|].
    cbn [JS.truthy_str]. exact Hrt.
  - split; apply lookup_insert_ne; assumption.
Qed.

Lemma login_survives_reload_witness :
  Auth.hydrate (fun s => Some (mkUser "user_m1_abc123" s))
               (Auth.login usr_name "user_m1_abc123" " Kari " ∅).2 =
  Some (Auth.login usr_name "user_m1_abc123" " Kari " ∅).1.
Proof.
  destruct (login_survives_reload
              usr_name (fun s => Some (mkUser "user_m1_abc123" s))
              "user_m1_abc123" " Kari " ∅) as (_ & H & _).
  - reflexivity.
  - vm_compute. discriminate.
  - exact H.
Defined.

(** X17. [logout] leaves no current user, removes the identity and both
    active-lobby keys and no other key; the start-up effect finds no user
    afterwards whatever the parser; leaving a group first makes no
    difference to what logout leaves behind, and logging out twice is
    logging out once. *)
Theorem logout_clears_every_groupie_key (parse : string -> option User) (ls : Storage) :
  let out := Auth.logout ls in
  out.1 = None /\
  Auth.hydrate parse out.2 = None /\
  out.2 !! STORAGE_KEY = None /\
  out.2 !! ACTIVE_LOBBY_KEY = None /\
  out.2 !! ACTIVE_BUSINESS_KEY = None /\
  (forall k : string,
      k <> STORAGE_KEY -> k <> ACTIVE_LOBBY_KEY -> k <> ACTIVE_BUSINESS_KEY ->
      out.2 !! k = ls !! k) /\
  (Auth.logout (Leave.lv_storage (Leave.leaveGroup true ls))).2 = out.2 /\
  (Auth.logout out.2).2 = out.2.
Proof.
  cbv zeta.
  assert (Hid : (Auth.logout ls).2 !! STORAGE_KEY = None).
  { rewrite logout_lookup. case_decide as H; [reflexivity|]. exfalso. apply H. auto. }
  split; [reflexivity|]. split.
  { unfold Auth.hydrate. rewrite Hid. reflexivity. }
  split; [exact Hid|]. split.
  { rewrite logout_lookup. case_decide as H; [reflexivity|]. exfalso. apply H. auto. }
  split.
  { rewrite logout_lookup. case_decide as H; [reflexivity|]. exfalso. apply H. auto. }
  split.
  { intros k H1 H2 H3. rewrite logout_lookup. case_decide as H; [|reflexivity]. tauto. }
  split.
  - apply map_eq. intros k. rewrite !logout_lookup.
    case_decide as H; [reflexivity|].
    cbn [Leave.leaveGroup Leave.lv_storage]. apply clearActiveLobby_other; tauto.
  - apply map_eq. intros k. rewrite !logout_lookup.
    case_decide as H; reflexivity.
Qed.

(** ** Further facts: trimming and the login page *)

Section TrimFacts.
Import Join.

Variable sp2 : ascii -> ascii -> bool.
Variable sp3 : ascii -> ascii -> ascii -> bool.

Lemma dropSpacesBy_length_bounded (n : nat) :
  forall l, (length l <= n)%nat ->
            (length (dropSpacesBy sp2 sp3 l) <= length l)%nat.
Proof.
  induction n as [|n IH]; intros l Hl.
  - destruct l; [simpl; lia|simpl in Hl; lia].
  - destruct l as [|c1 r1]; [simpl; lia|]. cbn [dropSpacesBy]. simpl in Hl.
    destruct (isSpace c1); [specialize (IH r1); simpl; lia|].
    destruct r1 as [|c2 r2]; [lia|]. simpl in Hl.
    destruct (sp2 c1 c2); [specialize (IH r2); simpl; lia|].
    destruct r2 as [|c3 r3]; [lia|]. simpl in Hl.
    destruct (sp3 c1 c2 c3); [specialize (IH r3); simpl; lia|lia].
Qed.

Lemma dropSpacesBy_length (l : list ascii) :
  (length (dropSpacesBy sp2 sp3 l) <= length l)%nat.
Proof. apply (dropSpacesBy_length_bounded (length l)). lia. Qed.

Lemma dropSpacesBy_idem_bounded (n : nat) :
  forall l, (length l <= n)%nat ->
            dropSpacesBy sp2 sp3 (dropSpacesBy sp2 sp3 l) = dropSpacesBy sp2 sp3 l.
Proof.
  induction n as [|n IH]; intros l Hl.
  - destruct l; [reflexivity|simpl in Hl; lia].
  - destruct l as [|c1 r1]; [reflexivity|]. cbn [dropSpacesBy]. simpl in Hl.
    destruct (isSpace c1) eqn:H1; [apply IH; lia|].
    destruct r1 as [|c2 r2]; [cbn [dropSpacesBy]; rewrite H1; reflexivity|]. simpl in Hl.
    destruct (sp2 c1 c2) eqn:H2; [apply IH; lia|].
    destruct r2 as [|c3 r3]; [cbn [dropSpacesBy]; rewrite H1, H2; reflexivity|]. simpl in Hl.
    destruct (sp3 c1 c2 c3) eqn:H3; [apply IH; lia|].
    cbn [dropSpacesBy]. rewrite H1, H2, H3. reflexivity.
Qed.

Lemma dropSpacesBy_idem (l : list ascii) :
  dropSpacesBy sp2 sp3 (dropSpacesBy sp2 sp3 l) = dropSpacesBy sp2 sp3 l.
Proof. apply (dropSpacesBy_idem_bounded (length l)). lia. Qed.

Lemma dropSpacesBy_suffix_bounded (n : nat) :
  forall l, (length l <= n)%nat -> exists pre, l = pre ++ dropSpacesBy sp2 sp3 l.
Proof.
  induction n as [|n IH]; intros l Hl.
  - destruct l; [exists []; reflexivity|simpl in Hl; lia].
  - destruct l as [|c1 r1]; [exists []; reflexivity|]. cbn [dropSpacesBy]. simpl in Hl.
    destruct (isSpace c1).
    { destruct (IH r1) as [pre Hp]; [lia|]. exists (c1 :: pre). simpl. f_equal. exact Hp. }
    destruct r1 as [|c2 r2]; [exists []; reflexivity|]. simpl in Hl.
    destruct (sp2 c1 c2).
    { destruct (IH r2) as [pre Hp]; [lia|]. exists (c1 :: c2 :: pre). simpl.
      do 2 f_equal. exact Hp. }
    destruct r2 as [|c3 r3]; [exists []; reflexivity|]. simpl in Hl.
    destruct (sp3 c1 c2 c3); [|exists []; reflexivity].
    destruct (IH r3) as [pre Hp]; [lia|]. exists (c1 :: c2 :: c3 :: pre). simpl.
    do 3 f_equal. exact Hp.
Qed.

Lemma dropSpacesBy_suffix (l : list ascii) : exists pre, l = pre ++ dropSpacesBy sp2 sp3 l.
Proof. apply (dropSpacesBy_suffix_bounded (length l)). lia. Qed.

(** A sequence with no white space at its head has none at the head of
    any of its prefixes. *)
Lemma dropSpacesBy_fixed_prefix (a b : list ascii) :
  dropSpacesBy sp2 sp3 (a ++ b) = a ++ b -> dropSpacesBy sp2 sp3 a = a.
Proof.
  intros H.
  assert (Hshort : forall r pre,
             dropSpacesBy sp2 sp3 r = pre ++ r -> pre <> [] -> False).
  { intros r pre Hr Hne. pose proof (dropSpacesBy_length r) as Hl.
    rewrite Hr, length_app in Hl. destruct pre; [congruence|simpl in Hl; lia]. }
  destruct a as [|c1 a1]; [reflexivity|]. cbn [dropSpacesBy app] in *.
  destruct (isSpace c1).
  { exfalso. apply (Hshort (a1 ++ b) [c1]); [exact H|discriminate]. }
  destruct a1 as [|c2 a2]; [reflexivity|]. cbn [app] in *.
  destruct (sp2 c1 c2).
  { exfalso. apply (Hshort (a2 ++ b) [c1; c2]); [exact H|discriminate]. }
  destruct a2 as [|c3 a3]; [reflexivity|]. cbn [app] in *.
  destruct (sp3 c1 c2 c3); [|reflexivity].
  exfalso. apply (Hshort (a3 ++ b) [c1; c2; c3]); [exact H|discriminate].
Qed.

End TrimFacts.

Section TrimIdempotent.
Import Join.

Lemma trim_chars_idem (l : list ascii) :
  rev (dropSpacesEnd (rev (dropSpaces (rev (dropSpacesEnd (rev (dropSpaces l))))))) =
  rev (dropSpacesEnd (rev (dropSpaces l))).
Proof.
  set (d1 := dropSpaces l). set (d2 := dropSpacesEnd (rev d1)).
  destruct (dropSpacesBy_suffix (fun c2 c1 => isSpace2 c1 c2)
              (fun c3 c2 c1 => isSpace3 c1 c2 c3) (rev d1)) as [pre Hpre].
  fold (dropSpacesEnd (rev d1)) in Hpre. fold d2 in Hpre.
  assert (Hd1 : d1 = rev d2 ++ rev pre).
  { rewrite <- (rev_involutive d1), Hpre, rev_app_distr. reflexivity. }
  assert (Hfix : dropSpaces (rev d2) = rev d2).
  { apply (dropSpacesBy_fixed_prefix isSpace2 isSpace3 (rev d2) (rev pre)).
    rewrite <- Hd1. apply dropSpacesBy_idem. }
  rewrite Hfix, rev_involutive. unfold d2 at 1.
  unfold dropSpacesEnd at 1 2. rewrite dropSpacesBy_idem. reflexivity.
Qed.

(** Trimming twice is trimming once. *)
Lemma trim_idem (s : string) : trim (trim s) = trim s.
Proof.
  unfold trim. rewrite list_ascii_of_string_of_list_ascii.
  rewrite trim_chars_idem. reflexivity.
Qed.

End TrimIdempotent.

(** X18. The login page calls [login] exactly for names whose [length]
    (in UTF-16 code units, as JavaScript counts) is at least two after
    trimming, and with the trimmed name; on either validation error it
    neither logs in nor navigates. The name it passes is already trimmed, so
    the identity [login] stores carries it unchanged. *)
Theorem login_page_accepts_two_characters (displayName : string) :
  let o := LoginPage.handleSubmit displayName in
  (forall n,
      LoginPage.su_login o = Some n <->
      n = Join.trim displayName /\ (2 <= Join.length16 (Join.trim displayName))%nat) /\
  (LoginPage.su_login o = None ->
   LoginPage.su_navigate o = None /\ LoginPage.su_error o <> None) /\
  (forall n (stringify : User -> string) (id : string) (ls : Storage),
      LoginPage.su_login o = Some n ->
      LoginPage.su_navigate o = Some "/" /\
      usr_name (Auth.login stringify id n ls).1 = n).
Proof.
  cbv zeta. unfold LoginPage.handleSubmit.
  destruct (JS.str_eq (Join.trim displayName) "") eqn:He.
  - apply str_eq_true in He. cbn [LoginPage.su_login LoginPage.su_navigate LoginPage.su_error].
    split; [|split].
    + intros n. split; [discriminate|]. intros [_ Hl]. rewrite He in Hl.
      cbv in Hl. lia.
    + intros _. split; [reflexivity|discriminate].
    + intros n sf id ls H. discriminate.
  - destruct (Join.length16 (Join.trim displayName) <? 2)%nat eqn:Hl;
      cbn [LoginPage.su_login LoginPage.su_navigate LoginPage.su_error].
    + apply Nat.ltb_lt in Hl. split; [|split].
      * intros n. split; [discriminate|]. intros [_ H]. lia.
      * intros _. split; [reflexivity|discriminate].
      * intros n sf id ls H. discriminate.
    + apply Nat.ltb_ge in Hl. split; [|split].
      * intros n. split; [intros H; injection H as <-; auto|]. intros [-> _]. reflexivity.
      * discriminate.
      * intros n sf id ls H. injection H as <-. split; [reflexivity|].
        unfold Auth.login. cbn [fst usr_name]. apply trim_idem.
Qed.

(** ** Further facts: the landing page and starting a group *)

(** X19. After the landing page has checked the saved pointer, the "Min
    gruppe" link is shown exactly when a non-empty lobby code is saved and
    the validation request came back OK, and it then leads to the saved code.
    The storage is changed by one outcome alone: a not-OK answer for a saved
    code removes both pointer keys; a connectivity failure keeps the
    pointer. A request is made only for a saved, non-empty code. *)
Theorem landing_my_group_link (r : Landing.ValidateResult) (ls : Storage) :
  let o := Landing.checkActiveLobby r ls in
  (Landing.showsMyGroup true (Landing.ck_nav o) = true <->
   exists code, ls !! ACTIVE_LOBBY_KEY = Some code /\ code <> "" /\ r = Landing.ValidateOk) /\
  (Landing.showsMyGroup true (Landing.ck_nav o) = true ->
   Landing.nav_activeLobbyCode (Landing.ck_nav o) = ls !! ACTIVE_LOBBY_KEY) /\
  (r <> Landing.ValidateNotOk -> Landing.ck_storage o = ls) /\
  (forall code,
      ls !! ACTIVE_LOBBY_KEY = Some code -> code <> "" ->
      Landing.ck_requests o = [GetLobby code] /\
      (r = Landing.ValidateNotOk ->
       Landing.ck_storage o = clearActiveLobby ls /\
       Landing.nav_activeLobbyCode (Landing.ck_nav o) = None)) /\
  (Landing.ck_requests o = [] <->
   ls !! ACTIVE_LOBBY_KEY = None \/ ls !! ACTIVE_LOBBY_KEY = Some "").
Proof.
  cbv zeta. unfold Landing.checkActiveLobby, Landing.showsMyGroup.
  destruct (ls !! ACTIVE_LOBBY_KEY) as [saved|] eqn:Hs.
  - destruct saved as [|c saved'] eqn:Hsaved; cbn [JS.truthy_str].
    + cbn [Landing.ck_nav Landing.ck_storage Landing.ck_requests
           Landing.nav_activeLobbyCode Landing.nav_isValidLobby JS.truthy_str andb].
      split; [split; [discriminate|intros (code & Hc & Hne & _); congruence]|].
      split; [discriminate|]. split; [reflexivity|].
      split; [intros code Hc Hne; congruence|]. split; auto.
    + destruct r; cbn [Landing.ck_nav Landing.ck_storage Landing.ck_requests
                       Landing.nav_activeLobbyCode Landing.nav_isValidLobby
                       JS.truthy_str andb].
      * split; [split; [discriminate|intros (code & _ & _ & Hr); discriminate]|].
        split; [discriminate|]. split; [reflexivity|].
        split; [intros code Hc Hne; injection Hc as <-; split; [reflexivity|discriminate]|].
        split; [discriminate|intros [H|H]; discriminate].
      * split; [split; [discriminate|intros (code & _ & _ & Hr); discriminate]|].
        split; [discriminate|]. split; [congruence|].
        split; [intros code Hc Hne; injection Hc as <-; repeat split; reflexivity|].
        split; [discriminate|intros [H|H]; discriminate].
      * split; [split; [intros _; eexists; repeat split; discriminate|reflexivity]|].
        split; [reflexivity|]. split; [reflexivity|].
        split; [intros code Hc Hne; injection Hc as <-; split; [reflexivity|discriminate]|].
        split; [discriminate|intros [H|H]; discriminate].
  - cbn [Landing.ck_nav Landing.ck_storage Landing.ck_requests
         Landing.nav_activeLobbyCode Landing.nav_isValidLobby JS.truthy_str andb].
    split; [split; [discriminate|intros (code & Hc & _); discriminate]|].
    split; [discriminate|]. split; [reflexivity|].
    split; [intros code Hc; discriminate|]. split; auto.
Qed.

(** X20. "Start ny gruppe" on the not-found screen sends nothing for a
    visitor without identity and only navigates to the login page; with an
    identity it posts one lobby for that name. A failure leaves the storage
    alone and navigates nowhere; a success saves the new code under the
    lobby key only, leaving whatever business id was saved, and once the
    lobby page of the new code has fetched its first OPEN snapshot the
    pointer names the new lobby and that snapshot's business. *)
Theorem start_new_group_from_not_found
        (user : option User) (r : CreateResult) (ls : Storage) :
  let o := NotFound.startNewGroup user r ls in
  (user = None -> o = NotFound.mkStart ls [] (Some "/login")) /\
  (forall u, user = Some u -> NotFound.so_requests o = [PostLobby (usr_name u)]) /\
  ((forall code, r <> CreateOk code) ->
   NotFound.so_storage o = ls /\ (user <> None -> NotFound.so_navigate o = None)) /\
  (forall u code,
      user = Some u -> r = CreateOk code ->
      NotFound.so_navigate o = Some (lobbyPath code) /\
      NotFound.so_storage o !! ACTIVE_LOBBY_KEY = Some code /\
      NotFound.so_storage o !! ACTIVE_BUSINESS_KEY = ls !! ACTIVE_BUSINESS_KEY /\
      forall data st,
        code <> "" -> status data = "OPEN" ->
        let t := View.fetchAndRender code user (Ok data) st (NotFound.so_storage o) in
        View.tk_storage t !! ACTIVE_LOBBY_KEY = Some (lobby_code data) /\
        View.tk_storage t !! ACTIVE_BUSINESS_KEY = Some (business_id data)).
Proof.
  cbv zeta. unfold NotFound.startNewGroup.
  split; [intros ->; reflexivity|]. split.
  { intros u ->. destruct r; reflexivity. }
  split.
  { intros Hr. destruct user as [u|]; [|split; [reflexivity|congruence]].
    destruct r as [| |code]; [split; reflexivity..|]. exfalso. eapply Hr. reflexivity. }
  intros u code -> ->. cbn [NotFound.so_navigate NotFound.so_storage].
  split; [reflexivity|]. split; [apply lookup_insert_eq|]. split.
  { apply lookup_insert_ne. intros H. symmetry in H. revert H. exact keys_distinct. }
  intros data st Hc Hs. cbv zeta. rewrite fetchAndRender_ok_storage by exact Hc.
  unfold Fetch.updatePointer. rewrite Hs.
  cbn [JS.str_eq String.eqb Ascii.eqb Bool.eqb orb]. split.
  - rewrite lookup_insert_ne by exact keys_distinct. apply lookup_insert_eq.
  - apply lookup_insert_eq.
Qed.

(** X21. [handleStartGroup] of the business page sends at most one
    request, always the creation of a lobby for this business under the
    user's name; it sends none without identity (it navigates to the login
    page) and none when the browser already has a group for this business
    (it navigates to that group). A creation that succeeds leaves the pointer
    at the new code and this business. When the user agrees to replace a
    group for another business and the creation then fails, the old pointer
    is gone all the same. *)
Theorem business_page_start_group
        (businessId : string) (user : option User)
        (activeLobbyCode activeLobbyBusinessId : option string)
        (confirmReplace : bool) (r : CreateResult) (ls : Storage) :
  let o := BusinessPage.handleStartGroup businessId user activeLobbyCode
             activeLobbyBusinessId confirmReplace r ls in
  (user = None -> o = BusinessPage.mkBiz ls [] [] (Some "/login")) /\
  (user <> None ->
   JS.truthy_str activeLobbyCode = true ->
   BusinessPage.sameBusiness activeLobbyBusinessId businessId = true ->
   o = BusinessPage.mkBiz ls [] [] (lobbyPath <$> activeLobbyCode)) /\
  (BusinessPage.bo_requests o = [] \/
   exists u, user = Some u /\
             BusinessPage.bo_requests o = [BusinessPage.CreateLobbyFor businessId (usr_name u)]) /\
  (forall code,
      r = CreateOk code -> BusinessPage.bo_requests o <> [] ->
      BusinessPage.bo_storage o !! ACTIVE_LOBBY_KEY = Some code /\
      BusinessPage.bo_storage o !! ACTIVE_BUSINESS_KEY = Some businessId /\
      BusinessPage.bo_navigate o = Some (lobbyPath code)) /\
  ((forall code, r <> CreateOk code) ->
   user <> None ->
   JS.truthy_str activeLobbyCode = true ->
   JS.truthy_str activeLobbyBusinessId = true ->
   BusinessPage.sameBusiness activeLobbyBusinessId businessId = false ->
   confirmReplace = true ->
   BusinessPage.bo_storage o = clearActiveLobby ls /\
   BusinessPage.bo_toasts o = [BusinessPage.ToastCreateFailed] /\
   BusinessPage.bo_navigate o = None).
Proof.
  cbv zeta. unfold BusinessPage.handleStartGroup.
  split; [intros ->; reflexivity|]. split.
  { intros Hu Hc Hb. destruct user; [|congruence]. rewrite Hc, Hb. reflexivity. }
  assert (Hcreate : forall ls0 u,
             BusinessPage.bo_requests
               (BusinessPage.createNewGroup businessId (Some u) r ls0) =
             [BusinessPage.CreateLobbyFor businessId (usr_name u)])
    by (intros ls0 u; unfold BusinessPage.createNewGroup; destruct r; reflexivity).
  assert (Hok : forall ls0 u code,
             r = CreateOk code ->
             let c := BusinessPage.createNewGroup businessId (Some u) r ls0 in
             BusinessPage.bo_storage c !! ACTIVE_LOBBY_KEY = Some code /\
             BusinessPage.bo_storage c !! ACTIVE_BUSINESS_KEY = Some businessId /\
             BusinessPage.bo_navigate c = Some (lobbyPath code)).
  { intros ls0 u code ->. cbv zeta. unfold BusinessPage.createNewGroup.
    cbn [BusinessPage.bo_storage BusinessPage.bo_navigate].
    split; [|split; [apply lookup_insert_eq|reflexivity]].
    rewrite lookup_insert_ne by exact keys_distinct. apply lookup_insert_eq. }
  split; [|split].
  - destruct user as [u|]; [|left; reflexivity].
    destruct (JS.truthy_str activeLobbyCode
              && BusinessPage.sameBusiness activeLobbyBusinessId businessId);
      [left; reflexivity|].
    destruct (JS.truthy_str activeLobbyCode && JS.truthy_str activeLobbyBusinessId
              && negb (BusinessPage.sameBusiness activeLobbyBusinessId businessId)).
    + destruct confirmReplace; [|left; reflexivity].
      right. exists u. split; [reflexivity|apply Hcreate].
    + right. exists u. split; [reflexivity|apply Hcreate].
  - intros code Hr Hreq. destruct user as [u|]; [|exfalso; apply Hreq; reflexivity].
    destruct (JS.truthy_str activeLobbyCode
              && BusinessPage.sameBusiness activeLobbyBusinessId businessId);
      [exfalso; apply Hreq; reflexivity|].
    destruct (JS.truthy_str activeLobbyCode && JS.truthy_str activeLobbyBusinessId
              && negb (BusinessPage.sameBusiness activeLobbyBusinessId businessId)).
    + destruct confirmReplace; [|exfalso; apply Hreq; reflexivity].
      apply (Hok _ _ _ Hr).
    + apply (Hok _ _ _ Hr).
  - intros Hr Hu Hc Hb Hs ->. destruct user as [u|]; [|congruence].
    rewrite Hc, Hb, Hs. cbn [andb negb]. unfold BusinessPage.createNewGroup.
    destruct r as [| |code]; [repeat split..|]. exfalso. eapply Hr. reflexivity.
Qed.

(** X22. [attachBusinessToLobby] changes the storage only when the PATCH
    request comes back OK, and then it sets the business key to this business
    and nothing else; without an active lobby, or when the user declines to
    switch away from another business, it sends no request at all. *)
Theorem attach_business_changes_only_on_success
        (businessId : string) (activeLobbyCode activeLobbyBusinessId : option string)
        (confirmSwitch patchOk : bool) (ls : Storage) :
  let o := BusinessPage.attachBusinessToLobby businessId activeLobbyCode
             activeLobbyBusinessId confirmSwitch patchOk ls in
  (BusinessPage.bo_storage o = ls \/
   (patchOk = true /\
    BusinessPage.bo_storage o = <[ACTIVE_BUSINESS_KEY := businessId]> ls /\
    exists code, activeLobbyCode = Some code /\
                 BusinessPage.bo_requests o = [BusinessPage.PatchBusiness code businessId] /\
                 BusinessPage.bo_navigate o = Some (lobbyPath code))) /\
  (patchOk = false -> BusinessPage.bo_storage o = ls /\ BusinessPage.bo_navigate o = None) /\
  (JS.truthy_str activeLobbyCode = false -> BusinessPage.bo_requests o = []) /\
  (JS.truthy_str activeLobbyBusinessId = true ->
   BusinessPage.sameBusiness activeLobbyBusinessId businessId = false ->
   confirmSwitch = false ->
   BusinessPage.bo_requests o = []).
Proof.
  cbv zeta. unfold BusinessPage.attachBusinessToLobby.
  destruct activeLobbyCode as [code|]; [|repeat split; auto].
  destruct (JS.truthy_str (Some code)) eqn:Hc; cbn [negb]; [|repeat split; auto].
  destruct (JS.truthy_str activeLobbyBusinessId) eqn:Hb;
    destruct (BusinessPage.sameBusiness activeLobbyBusinessId businessId) eqn:Hs;
    destruct confirmSwitch, patchOk; cbn [andb negb];
    cbn [BusinessPage.bo_storage BusinessPage.bo_requests BusinessPage.bo_navigate];
    (split; [first [left; reflexivity
                   |right; split; [reflexivity|split; [reflexivity|
                      exists code; repeat split; reflexivity]]]|]);
    (split; [first [intros _; split; reflexivity|discriminate]|]);
    (split; [discriminate|]);
    first [intros _ _ _; reflexivity|discriminate|intros _; discriminate
          |intros _ _; discriminate].
Qed.

(** ** Further facts: the countdown display *)

(** X23. The minutes and seconds on display decode to the remaining time:
    for a non-negative number of seconds the seconds field is below 60,
    sixty times the minutes plus the seconds is the remaining time, and the
    urgent styling is on exactly under 300 seconds; hence two different
    remaining times never look the same. *)
Theorem countdown_display_decodes (remaining : Z) (m s : Z) (urgent : bool) :
  0 <= remaining ->
  Countdown.showTime remaining = Countdown.ShowsTime m s urgent ->
  remaining = 60 * m + s /\ 0 <= m /\ 0 <= s < 60 /\
  (urgent = true <-> remaining < 300) /\
  (forall other, 0 <= other ->
                 Countdown.showTime other = Countdown.ShowsTime m s urgent ->
                 other = remaining).
Proof.
  intros Hr H. unfold Countdown.showTime in *. injection H as Hm Hs Hu.
  pose proof (Z.div_mod remaining 60 ltac:(lia)) as Hdm.
  pose proof (Z.mod_pos_bound remaining 60 ltac:(lia)) as Hb.
  assert (0 <= remaining / 60) by (apply Z.div_pos; lia).
  split; [lia|]. split; [lia|]. split; [lia|]. split.
  - rewrite <- Hu. apply Z.ltb_lt.
  - intros other Ho H'. injection H' as Hm' Hs' _.
    pose proof (Z.div_mod other 60 ltac:(lia)). lia.
Qed.

Lemma countdown_display_decodes_witness :
  125 = 60 * 2 + 5 /\ 0 <= 2 /\ 0 <= 5 < 60 /\
  (true = true <-> 125 < 300) /\
  (forall other, 0 <= other ->
                 Countdown.showTime other = Countdown.ShowsTime 2 5 true ->
                 other = 125).
Proof.
  apply (countdown_display_decodes 125 2 5 true).
  - lia.
  - reflexivity.
Defined.

(** X24. The remaining seconds are zero exactly when less than one whole
    second separates the clock from the expiry, and they never increase as
    the clock advances. So a timer mounted less than a second before the
    expiry, or after it, is in the expired state at once and has called
    [onExpired] once, while one mounted with a second or more to go shows a
    positive time and has not called it. *)
Theorem countdown_expires_in_last_second (expires now commitNow : Z) :
  (Countdown.remainingAt expires now = 0 <-> expires - now < 1000) /\
  (forall later, now <= later ->
                 Countdown.remainingAt expires later <= Countdown.remainingAt expires now) /\
  (expires - now < 1000 ->
   Countdown.view (Countdown.mount expires now commitNow).1 = Countdown.ShowsExpired /\
   (Countdown.mount expires now commitNow).2 = 1%nat) /\
  (1000 <= expires - now ->
   Countdown.view (Countdown.mount expires now commitNow).1 =
     Countdown.showTime (Countdown.remainingAt expires now) /\
   0 < Countdown.remainingAt expires now /\
   (Countdown.mount expires now commitNow).2 = 0%nat).
Proof.
  assert (Hzero : forall t, Countdown.remainingAt expires t = 0 <-> expires - t < 1000).
  { intros t. unfold Countdown.remainingAt. split.
    - intros H. destruct (Z_lt_ge_dec (expires - t) 1000) as [Hlt|Hge]; [exact Hlt|].
      assert (1 <= (expires - t) / 1000) by (apply Z.div_le_lower_bound; lia). lia.
    - intros H. assert ((expires - t) / 1000 <= 0); [|lia].
      destruct (Z_lt_ge_dec (expires - t) 0) as [Hneg|Hpos].
      + apply Z.div_le_upper_bound; lia.
      + rewrite Z.div_small by lia. lia. }
  destruct (mount_settled expires now commitNow) as (_ & Hex & Hf & _ & Htr).
  split; [apply Hzero|]. split; [|split].
  - intros later Hl. unfold Countdown.remainingAt.
    assert ((expires - later) / 1000 <= (expires - now) / 1000)
      by (apply Z.div_le_mono; lia).
    lia.
  - intros H. apply Hzero in H. rewrite H in Hex, Hf. cbn [Z.eqb] in Hex, Hf.
    split; [unfold Countdown.view; rewrite Hex; reflexivity|exact Hf].
  - intros H.
    assert (Hnz : Countdown.remainingAt expires now <> 0) by (rewrite Hzero; lia).
    pose proof (remainingAt_nonneg expires now) as Hnn.
    apply Z.eqb_neq in Hnz. rewrite Hnz in Hex, Hf.
    split; [unfold Countdown.view; rewrite Hex, (Htr Hex); reflexivity|].
    split; [apply Z.eqb_neq in Hnz; lia|exact Hf].
Qed.

(** ** Further facts: a guest at the join gate *)

(** X25. At the join gate a visitor without identity is logged in under
    the trimmed name before the join request is answered: [login] is called
    whatever the answer, a rejection included, so after a rejected join the
    next start-up finds that guest identity in the storage; a visitor who
    already has an identity is never logged in again by the gate. *)
Theorem guest_is_logged_in_before_join_answer
        (props : JoinGateProps) (displayName : string) (r : Join.JoinResult)
        (stringify : User -> string) (parse : string -> option User)
        (id : string) (ls : Storage) :
  Join.trim displayName <> "" ->
  parse (stringify (mkUser id (Join.trim displayName))) =
    Some (mkUser id (Join.trim displayName)) ->
  stringify (mkUser id (Join.trim displayName)) <> "" ->
  let o := Join.handleJoin props displayName r in
  (jg_isLoggedIn props = true -> Join.jo_login o = None) /\
  (jg_isLoggedIn props = false ->
   Join.jo_login o = Some (Join.trim displayName) /\
   Auth.hydrate parse (Auth.login stringify id (Join.trim displayName) ls).2 =
     Some (mkUser id (Join.trim displayName))).
Proof.
  intros Hn Hrt Hne. cbv zeta. unfold Join.handleJoin. rewrite (nonempty_code _ Hn).
  split.
  - intros ->. destruct r; reflexivity.
  - intros ->. split; [destruct r; reflexivity|].
    unfold Auth.login, Auth.hydrate. cbn [snd]. rewrite lookup_insert_eq.
    rewrite trim_idem.
    destruct (stringify (mkUser id (Join.trim displayName))) eqn:Hs; [congruence|].
    cbn [JS.truthy_str]. exact Hrt.
Qed.

Lemma guest_is_logged_in_before_join_answer_witness :
  Join.jo_login
    (Join.handleJoin (mkJoinGate "ABC123" "Kari" None false None) " Ola "
                     (Join.JoinNotOk (Some "Lobby is locked"))) =
  Some (Join.trim " Ola ").
Proof.
  destruct (guest_is_logged_in_before_join_answer
              (mkJoinGate "ABC123" "Kari" None false None) " Ola "
              (Join.JoinNotOk (Some "Lobby is locked"))
              usr_name (fun s => Some (mkUser "user_m2_def456" s))
              "user_m2_def456" ∅) as [_ H].
  - vm_compute. discriminate.
  - reflexivity.
  - vm_compute. discriminate.
  - destruct H as [H _]; [reflexivity|exact H].
Defined.


(** ** Worked instances outside ASCII *)

Example trim_no_break_space : Join.trim Unicode.nbsp = "".
Proof. reflexivity. Qed.

Example trim_mixed_white_space :
  Join.trim (String.append " "
               (String.append Unicode.nbsp
                  (String.append "Ola"
                     (String.append Unicode.ideographicSpace Unicode.byteOrderMark)))) = "Ola".
Proof. reflexivity. Qed.

Example trim_keeps_zero_width_space :
  Join.trim Unicode.zeroWidthSpace = Unicode.zeroWidthSpace.
Proof. reflexivity. Qed.

Example trim_keeps_inner_and_letters :
  Join.trim (String.append " " (String.append Unicode.aRingSe " ")) = Unicode.aRingSe.
Proof. reflexivity. Qed.

Example length_counts_code_units :
  Join.length16 Unicode.aRing = 1%nat /\
  Join.length16 Unicode.aRingSe = 3%nat /\
  Join.length16 Unicode.grinningFace = 2%nat.
Proof. repeat split. Qed.

(** A name of white space only, ASCII or not, stays at the join gate's
    guard. *)
Example join_blank_unicode_name :
  Join.handleJoin (mkJoinGate "ABC123" "Kari" None false None)
                  (String.append Unicode.nbsp " ") Join.JoinOk =
  Join.mkOutcome [] None (Some Join.MSG_ENTER_NAME) [] None.
Proof. reflexivity. Qed.

(** The login page turns the one-letter name away and lets the
    three-letter one in. *)
Example login_page_one_letter :
  LoginPage.handleSubmit Unicode.aRing =
  LoginPage.mkSubmit (Some LoginPage.ErrTooShort) None None.
Proof. reflexivity. Qed.

Example login_page_three_letters :
  LoginPage.handleSubmit Unicode.aRingSe =
  LoginPage.mkSubmit None (Some Unicode.aRingSe) (Some "/").
Proof. reflexivity. Qed.
